(** * braviaproapi: a shallow embedding of the Bravia client

    The development follows the three source files of the package:
    [braviaclient.py] (the client and its compatibility gate), [audio.py]
    and [system.py] (the API operations).  Python objects are modelled by
    the inductive type [value]; an operation is a computation in a small
    state-and-exception monad [M] over the observable state of a client
    (its initialisation flag, the requests it has sent, what it has
    printed).  The HTTP layer ([http.py]), [errors.py], [util.py] and the
    third-party libraries [packaging] and [dateutil] are not part of the
    three files; what the operations need from them is collected in the
    class [Externals] and in the type [Device]. *)

From stdpp Require Import gmap strings list.
From Stdlib Require Import ZArith Ascii DecimalString.

Local Set Warnings "-register-all".
Local Open Scope Z_scope.

(** ** Python values *)

(** The values a decoded JSON response is made of, which are also the
    values callers pass for plain arguments.  Strings are sequences of
    8-bit characters, and nothing here decides which of them are digits
    for a regular expression; floating point numbers are left out. *)
Inductive value : Type :=
| VNone
| VBool (b : bool)
| VInt (z : Z)
| VStr (s : string)
| VList (l : list value)
| VDict (d : gmap string value).

(** The enumerations of [audio.py] and [system.py]. *)
Inductive AudioOutputs := AudioOutputs_UNKNOWN | SPEAKER | SPEAKER_HDMI | HDMI | AUDIO_SYSTEM.
Inductive TvPosition := TvPosition_UNKNOWN | TABLE_TOP | WALL_MOUNT.
Inductive SubwooferPhase := SubwooferPhase_UNKNOWN | NORMAL | REVERSE.
Inductive VolumeDevice := VolumeDevice_UNKNOWN | SPEAKERS | HEADPHONES.
Inductive LedMode := LedMode_UNKNOWN | DEMO | AUTO_BRIGHTNESS | DARK | SIMPLE_RESPONSE | LedMode_OFF.
Inductive PowerSavingMode := PowerSavingMode_UNKNOWN | PowerSavingMode_OFF | LOW | HIGH | PICTURE_OFF.

Global Instance AudioOutputs_eq_dec : EqDecision AudioOutputs.
Proof. solve_decision. Defined.
Global Instance TvPosition_eq_dec : EqDecision TvPosition.
Proof. solve_decision. Defined.
Global Instance SubwooferPhase_eq_dec : EqDecision SubwooferPhase.
Proof. solve_decision. Defined.
Global Instance VolumeDevice_eq_dec : EqDecision VolumeDevice.
Proof. solve_decision. Defined.
Global Instance LedMode_eq_dec : EqDecision LedMode.
Proof. solve_decision. Defined.
Global Instance PowerSavingMode_eq_dec : EqDecision PowerSavingMode.
Proof. solve_decision. Defined.

(** An argument of a public method: a plain value or an enumeration member. *)
Inductive pyobj : Type :=
| PyValue (v : value)
| PyAudioOutputs (o : AudioOutputs)
| PyTvPosition (p : TvPosition)
| PySubwooferPhase (p : SubwooferPhase)
| PyVolumeDevice (d : VolumeDevice)
| PyLedMode (m : LedMode)
| PyPowerSavingMode (m : PowerSavingMode).

(** ** Exceptions and outcomes *)

(** Exception classes; messages are not modelled.  [HttpError] keeps its
    [error_code] attribute, which the handlers inspect.  [LibraryError]
    stands for the exceptions of the third-party parsers. *)
Inductive exn : Type :=
| HttpError (error_code : option Z)
| ApiError
| BraviaApiError
| BraviaInternalError
| TypeError
| ValueError
| IndexError
| KeyError
| AttributeError
| RecursionError
| LibraryError.

Inductive outcome (A : Type) : Type :=
| Return (a : A)
| Raise (e : exn).
Arguments Return {A} a.
Arguments Raise {A} e.

Definition is_Raise {A} (o : outcome A) : bool :=
  match o with Raise _ => true | Return _ => false end.

(** Code without effects on the client is written in the monad [outcome],
    with stdpp's notation [x ← e; k]. *)
Global Instance outcome_ret : MRet outcome := fun A a => Return a.
Global Instance outcome_bind : MBind outcome :=
  fun A B k o => match o with Return a => k a | Raise e => Raise e end.

(** [for x in l: body], the body updating an accumulator or raising. *)
Fixpoint for_each {A S} (l : list A) (body : A -> S -> outcome S) (acc : S) : outcome S :=
  match l with
  | [] => Return acc
  | x :: l' => acc' ← body x acc; for_each l' body acc'
  end.

(** ** Requests, devices and the state of a client *)

Record request := Request {
  endpoint : string;
  method : string;
  params : option (list (string * value));
  version : string
}.

(** What [Http.request] gives back: the decoded result, or an [HttpError]
    with its error code. *)
Inductive response : Type :=
| Result (v : value)
| Error (error_code : option Z).

(** A device answers a request knowing the requests it has received so far. *)
Definition Device := list request -> request -> response.

Record world := World {
  initialized : bool;          (* BraviaClient.__initialized *)
  sent : list request;         (* requests issued through http_client *)
  pprinted : list value        (* arguments of pprint, in order *)
}.

Definition fresh_client : world := World false [] [].

(** ** The monad of operations *)

Definition M (A : Type) : Type := world -> outcome A * world.

Definition ret {A} (a : A) : M A := fun w => (Return a, w).
Definition raise {A} (e : exn) : M A := fun w => (Raise e, w).
Definition bind {A B} (m : M A) (k : A -> M B) : M B :=
  fun w => match m w with
           | (Return a, w') => k a w'
           | (Raise e, w') => (Raise e, w')
           end.

Declare Scope py_scope.
Delimit Scope py_scope with py.
Notation "x <- m ;; k" := (bind m (fun x => k))
  (at level 100, m at next level, right associativity) : py_scope.
Notation "m ;; k" := (bind m (fun _ => k))
  (at level 100, right associativity) : py_scope.
Local Open Scope py_scope.

(** Running code that has no effect on the client. *)
Definition lift {A} (o : outcome A) : M A := fun w => (o, w).

(** [try: body / except HttpError as err: handler err.error_code]. *)
Definition try_except_HttpError {A} (body : M A) (handler : option Z -> M A) : M A :=
  fun w => match body w with
           | (Raise (HttpError code), w') => handler code w'
           | r => r
           end.

Definition get_initialized : M bool := fun w => (Return (initialized w), w).
Definition set_initialized (b : bool) : M unit :=
  fun w => (Return tt, World b (sent w) (pprinted w)).
Definition pprint (v : value) : M unit :=
  fun w => (Return tt, World (initialized w) (sent w) (pprinted w ++ [v])).

(** ** Python primitives on values *)

Definition error_code_is (code : option Z) (c : Z) : bool :=
  match code with Some z => z =? c | None => false end.

(** [v == "lit"] *)
Definition eq_str (v : value) (lit : string) : bool :=
  match v with VStr s => String.eqb s lit | _ => false end.

(** [v is None] *)
Definition is_None (v : value) : bool :=
  match v with VNone => true | _ => false end.

(** [True if v else False] *)
Definition truthy (v : value) : bool :=
  match v with
  | VNone => false
  | VBool b => b
  | VInt z => negb (z =? 0)
  | VStr s => negb (String.eqb s "")
  | VList l => match l with [] => false | _ => true end
  | VDict d => negb (Nat.eqb (size d) 0)
  end.

(** [len(v)] *)
Definition len (v : value) : outcome nat :=
  match v with
  | VStr s => Return (String.length s)
  | VList l => Return (length l)
  | VDict d => Return (size d)
  | _ => Raise TypeError
  end.

(** [v["key"]] *)
Definition getitem_str (v : value) (key : string) : outcome value :=
  match v with
  | VDict d => match d !! key with Some x => Return x | None => Raise KeyError end
  | _ => Raise TypeError
  end.

(** [v[i]] for a literal index [i >= 0]; a decoded dictionary has string
    keys only, so an integer key is never found. *)
Definition getitem_int (v : value) (i : nat) : outcome value :=
  match v with
  | VList l => match l !! i with Some x => Return x | None => Raise IndexError end
  | VStr s => match String.get i s with
              | Some c => Return (VStr (String c EmptyString))
              | None => Raise IndexError
              end
  | VDict _ => Raise KeyError
  | _ => Raise TypeError
  end.

(** [v.get("key")] *)
Definition get (v : value) (key : string) : outcome value :=
  match v with
  | VDict d => Return (default VNone (d !! key))
  | _ => Raise AttributeError
  end.

Fixpoint chars (s : string) : list value :=
  match s with
  | EmptyString => []
  | String c s' => VStr (String c EmptyString) :: chars s'
  end.

Fixpoint is_substring (lit s : string) : bool :=
  String.prefix lit s ||
  match s with
  | EmptyString => false
  | String _ s' => is_substring lit s'
  end.

(** ["lit" in v] *)
Definition contains_str (v : value) (lit : string) : outcome bool :=
  match v with
  | VDict d => Return (bool_decide (is_Some (d !! lit)))
  | VList l => Return (existsb (fun x => eq_str x lit) l)
  | VStr s => Return (is_substring lit s)
  | _ => Raise TypeError
  end.

(** [for x in v]: the elements of a list, the characters of a string, the
    keys of a dictionary. *)
Definition iter (v : value) : outcome (list value) :=
  match v with
  | VList l => Return l
  | VStr s => Return (chars s)
  | VDict d => Return (VStr <$> (map_to_list d).*1)
  | _ => Raise TypeError
  end.

(** [table.get(key)] on a dictionary literal with string keys: unhashable
    keys raise, other keys that are not strings are absent. *)
Definition table_get {A} (table : list (string * A)) (key : value) : outcome (option A) :=
  match key with
  | VStr s => Return (snd <$> List.find (fun kv => String.eqb (fst kv) s) table)
  | VList _ | VDict _ => Raise TypeError
  | _ => Return None
  end.

(** [table.get(key, fallback)] *)
Definition table_get_default {A} (table : list (string * A)) (key : value) (fallback : A)
    : outcome A :=
  match table_get table key with
  | Return found => Return (default fallback found)
  | Raise e => Raise e
  end.

(** [str(z)] for an integer. *)
Definition str_int (z : Z) : string := NilZero.string_of_int (Z.to_int z).

(** The pattern [^[+-]\d+$] read on ASCII strings: a sign, one or more of
    the digits [0] to [9], then the end of the string or a single final
    newline.  What [\d] matches beyond ASCII belongs to the library [re],
    see [Externals]. *)
Definition is_ascii_digit (c : ascii) : bool :=
  (48 <=? Z.of_nat (nat_of_ascii c)) && (Z.of_nat (nat_of_ascii c) <=? 57).

Definition is_sign (c : ascii) : bool :=
  Ascii.eqb c "+"%char || Ascii.eqb c "-"%char.

Fixpoint digits_to_end (s : string) : bool :=
  match s with
  | EmptyString => true
  | String c s' =>
      (is_ascii_digit c && digits_to_end s') ||
      (Ascii.eqb c (ascii_of_nat 10) && match s' with EmptyString => true | _ => false end)
  end.

Definition ascii_relative_volume (s : string) : bool :=
  match s with
  | String c (String d s') => is_sign c && is_ascii_digit d && digits_to_end s'
  | _ => false
  end.

Fixpoint is_ascii (s : string) : bool :=
  match s with
  | EmptyString => true
  | String c s' => (Z.of_nat (nat_of_ascii c) <? 128) && is_ascii s'
  end.

(** ** What the operations use from outside the three files *)

(** [coalesce_none_or_empty] is defined in [util.py], the [ApiErrors]
    codes in [errors.py]; [version.parse] and its comparisons come from
    [packaging], [date_parser.parse] from [dateutil].
    [re_match_relative_volume s] is [re.match(r'^[+-]\d+$', s) is not None],
    from [re]: it is left open which characters [\d] takes outside
    ASCII, and on ASCII strings it is the pattern read above. *)
Class Externals := {
  coalesce_none_or_empty : value -> value;
  ApiErrors_ILLEGAL_ARGUMENT : Z;
  ApiErrors_ILLEGAL_STATE : Z;
  Version : Type;
  version_parse : value -> outcome Version;
  version_ge : Version -> Version -> bool;
  version_lt : Version -> Version -> bool;
  datetime : Type;
  date_parser_parse : value -> outcome datetime;
  re_match_relative_volume : string -> bool;
  re_match_relative_volume_ascii :
    forall s, is_ascii s = true -> re_match_relative_volume s = ascii_relative_volume s
}.

(** The client after it has sent [r]. *)
Definition logged (w : world) (r : request) : world :=
  World (initialized w) (sent w ++ [r]) (pprinted w).

(** [http_client.request(endpoint=..., method=..., params=..., version=...)]:
    the request is recorded and the device's answer is returned or raised. *)
Definition http_request (http_client : Device) (endpoint method : string)
    (params : option (list (string * value))) (version : string) : M value :=
  fun w =>
    let r := Request endpoint method params version in
    match http_client (sent w) r with
    | Result v => (Return v, logged w r)
    | Error code => (Raise (HttpError code), logged w r)
    end.

(** [type(x) is bool], [type(x) is str], [type(x) is int], [x is None],
    [x or ""] on arguments. *)
Definition as_bool (x : pyobj) : option bool :=
  match x with PyValue (VBool b) => Some b | _ => None end.
Definition as_str (x : pyobj) : option string :=
  match x with PyValue (VStr s) => Some s | _ => None end.
Definition as_int (x : pyobj) : option Z :=
  match x with PyValue (VInt z) => Some z | _ => None end.
Definition arg_is_None (x : pyobj) : bool :=
  match x with PyValue VNone => true | _ => false end.
Definition arg_truthy (x : pyobj) : bool :=
  match x with PyValue v => truthy v | _ => true end.
Definition or_empty_str (x : pyobj) : pyobj :=
  if arg_truthy x then x else PyValue (VStr "").


(** ** system.py *)

Module System.

Record interface_info := InterfaceInfo {
  product_category : value;
  product_name : value;
  model_name : value;
  server_name : value;
  interface_version : value
}.

Record led_info := LedInfo {
  led_status : option bool;
  led_mode : option LedMode
}.

Record iface_info := IfaceInfo {
  iface_name : value;
  iface_mac : value;
  iface_ip_v4 : value;
  iface_ip_v6 : value;
  iface_netmask : value;
  iface_gateway : value;
  iface_dns_servers : value
}.

(** The three shapes [get_network_settings] returns. *)
Inductive network_settings :=
| NoSuchInterface                       (* None *)
| OneInterface (i : iface_info)         (* network_interfaces[0] *)
| AllInterfaces (l : list iface_info).  (* network_interfaces *)

Record sys_info := SysInfo {
  sys_product : value;
  sys_language : value;
  sys_model : value;
  sys_serial : value;
  sys_mac : value;
  sys_name : value;
  sys_generation : value
}.

(** Keys of the dictionary built by [get_remote_control_info]: lists and
    dictionaries are unhashable; [True == 1] and [False == 0]. *)
Definition hashable (k : value) : bool :=
  match k with VList _ | VDict _ => false | _ => true end.

Definition key_eq (a b : value) : bool :=
  match a, b with
  | VNone, VNone => true
  | VStr s, VStr t => String.eqb s t
  | VBool x, VBool y => Bool.eqb x y
  | VInt x, VInt y => x =? y
  | VBool x, VInt y | VInt y, VBool x => (if x then 1 else 0) =? y
  | _, _ => false
  end.

Fixpoint dict_set (d : list (value * value)) (k v : value) : list (value * value) :=
  match d with
  | [] => [(k, v)]
  | (k', v') :: d' => if key_eq k' k then (k', v) :: d' else (k', v') :: dict_set d' k v
  end.

Definition valid_led_modes : list (string * LedMode) :=
  [("Demo", DEMO); ("AutoBrightnessAdjust", AUTO_BRIGHTNESS); ("Dark", DARK);
   ("SimpleResponse", SIMPLE_RESPONSE); ("Off", LedMode_OFF)]%string.

Definition valid_power_saving_modes : list (string * PowerSavingMode) :=
  [("off", PowerSavingMode_OFF); ("low", LOW); ("high", HIGH);
   ("pictureOff", PICTURE_OFF)]%string.

(** The tables of the setters, keyed by enumeration member; [None] is the
    fallback [UNKNOWN] of [modes.get(mode, UNKNOWN)]. *)
Definition led_mode_name (m : LedMode) : option string :=
  match m with
  | AUTO_BRIGHTNESS => Some "AutoBrightnessAdjust"
  | DARK => Some "Dark"
  | SIMPLE_RESPONSE => Some "SimpleResponse"
  | DEMO => Some "Demo"
  | LedMode_OFF => Some "Off"
  | LedMode_UNKNOWN => None
  end%string.

Definition power_saving_mode_name (m : PowerSavingMode) : option string :=
  match m with
  | PowerSavingMode_OFF => Some "off"
  | LOW => Some "low"
  | HIGH => Some "high"
  | PICTURE_OFF => Some "pictureOff"
  | PowerSavingMode_UNKNOWN => None
  end%string.

Section methods.
Context `{Externals}.
(** [self.http_client] and [self.bravia_client.initialize]. *)
Context (http_client : Device) (bravia_client_initialize : M unit).

Definition request := http_request http_client.

(** [except HttpError as err: raise BraviaApiError(get_error_message(...))] *)
Definition reraise {A} (body : M A) : M A :=
  try_except_HttpError body (fun _ => raise BraviaApiError).

Definition set_power_status (power_state : pyobj) : M unit :=
  bravia_client_initialize ;;
  match as_bool power_state with
  | None => raise TypeError
  | Some b =>
      reraise (request "system" "setPowerStatus" (Some [("status", VBool b)]) "1.0" ;; ret tt)
  end.

Definition power_on : M unit :=
  bravia_client_initialize ;;
  set_power_status (PyValue (VBool true)).

Definition power_off : M unit :=
  bravia_client_initialize ;;
  set_power_status (PyValue (VBool false)).

Definition get_power_status : M bool :=
  bravia_client_initialize ;;
  response <- reraise (request "system" "getPowerStatus" None "1.0") ;;
  lift (
    status ← getitem_str response "status";
    if eq_str status "standby" then Return false else
    status ← getitem_str response "status";
    if eq_str status "active" then Return true else
    _ ← getitem_str response "status";
    Raise BraviaApiError).

Definition get_current_time : M (option datetime) :=
  bravia_client_initialize ;;
  try_except_HttpError
    (response <- request "system" "getCurrentTime" None "1.1" ;;
     lift (
       dateTime ← getitem_str response "dateTime";
       date ← date_parser_parse dateTime;
       Return (Some date)))
    (fun code =>
       if error_code_is code ApiErrors_ILLEGAL_STATE then ret None
       else raise BraviaApiError).

Definition get_interface_information : M interface_info :=
  bravia_client_initialize ;;
  response <- reraise (request "system" "getInterfaceInformation" None "1.0") ;;
  lift (
    productCategory ← get response "productCategory";
    productName ← get response "productName";
    modelName ← get response "modelName";
    serverName ← get response "serverName";
    interfaceVersion ← get response "interfaceVersion";
    Return (InterfaceInfo (coalesce_none_or_empty productCategory)
                          (coalesce_none_or_empty productName)
                          (coalesce_none_or_empty modelName)
                          (coalesce_none_or_empty serverName)
                          (coalesce_none_or_empty interfaceVersion))).

Definition get_led_status : M led_info :=
  bravia_client_initialize ;;
  response <- reraise (request "system" "getLEDIndicatorStatus" None "1.0") ;;
  lift (
    has_status ← contains_str response "status";
    led_status ←
      (if has_status : bool then
         status ← getitem_str response "status";
         if eq_str status "true" then Return (Some true) else
         status ← getitem_str response "status";
         if eq_str status "false" then Return (Some false) else Return None
       else Return None);
    has_mode ← contains_str response "mode";
    led_mode ←
      (if has_mode : bool then
         mode ← get response "mode";
         led_mode ← table_get_default valid_led_modes mode LedMode_UNKNOWN;
         if bool_decide (led_mode = LedMode_UNKNOWN) then
           _ ← get response "mode"; Raise BraviaApiError
         else Return (Some led_mode)
       else Return None);
    Return (LedInfo led_status led_mode)).

Definition read_iface (iface : value) (network_interfaces : list iface_info)
    : outcome (list iface_info) :=
  netif ← get iface "netif";
  hwAddr ← get iface "hwAddr";
  ipAddrV4 ← get iface "ipAddrV4";
  ipAddrV6 ← get iface "ipAddrV6";
  netmask ← get iface "netmask";
  gateway ← get iface "gateway";
  dns ← get iface "dns";
  Return (network_interfaces ++
          [IfaceInfo (coalesce_none_or_empty netif) (coalesce_none_or_empty hwAddr)
             (coalesce_none_or_empty ipAddrV4) (coalesce_none_or_empty ipAddrV6)
             (coalesce_none_or_empty netmask) (coalesce_none_or_empty gateway)
             (coalesce_none_or_empty dns)]).

(** [interface] defaults to [None]. *)
Definition get_network_settings (interface : pyobj) : M network_settings :=
  bravia_client_initialize ;;
  match as_str (or_empty_str interface) with
  | None => raise TypeError
  | Some request_interface =>
      answer <- try_except_HttpError
        (response <- request "system" "getNetworkSettings"
                       (Some [("netif", VStr request_interface)]) "1.0" ;;
         ret (Some response))
        (fun code =>
           if error_code_is code ApiErrors_ILLEGAL_ARGUMENT then ret None
           else raise BraviaApiError) ;;
      lift (
        match answer with
        | None => Return NoSuchInterface
        | Some (VList response) =>
            network_interfaces ← for_each response read_iface [];
            if negb (arg_is_None interface) then
              match network_interfaces with
              | first :: _ => Return (OneInterface first)
              | [] => Raise IndexError
              end
            else Return (AllInterfaces network_interfaces)
        | Some _ => Raise BraviaApiError
        end)
  end.

Definition get_power_saving_mode : M (option PowerSavingMode) :=
  bravia_client_initialize ;;
  response <- reraise (request "system" "getPowerSavingMode" None "1.0") ;;
  lift (
    has_mode ← contains_str response "mode";
    if has_mode : bool then
      mode ← get response "mode";
      saving_mode ← table_get_default valid_power_saving_modes mode PowerSavingMode_UNKNOWN;
      if bool_decide (saving_mode = PowerSavingMode_UNKNOWN) then
        _ ← get response "mode"; Raise BraviaApiError
      else Return (Some saving_mode)
    else Return None).

Definition read_button (button : value) (button_codes : list (value * value))
    : outcome (list (value * value)) :=
  v ← getitem_str button "value";
  k ← getitem_str button "name";
  if hashable k then Return (dict_set button_codes k v) else Raise TypeError.

Definition get_remote_control_info : M (list (value * value)) :=
  bravia_client_initialize ;;
  response <- reraise (request "system" "getRemoteControllerInfo" None "1.0") ;;
  lift (
    n ← len response;
    if negb (Nat.eqb n 2) then Raise BraviaApiError else
    buttons ← getitem_int response 1;
    buttons ← iter buttons;
    for_each buttons read_button []).

Definition get_remote_access_status : M bool :=
  bravia_client_initialize ;;
  response <- reraise (request "system" "getRemoteDeviceSettings"
                         (Some [("target", VStr "accessPermission")]) "1.0") ;;
  lift (
    n ← len response;
    if negb (Nat.eqb n 1) then Raise BraviaApiError else
    first ← getitem_int response 0;
    currentValue ← getitem_str first "currentValue";
    if eq_str currentValue "on" then Return true else
    first ← getitem_int response 0;
    currentValue ← getitem_str first "currentValue";
    if eq_str currentValue "false" then Return false else
    (* the message of the error is built from response["currentValue"] *)
    _ ← getitem_str response "currentValue";
    Raise BraviaApiError).

Definition get_system_information : M sys_info :=
  bravia_client_initialize ;;
  response <- reraise (request "system" "getSystemInformation" None "1.0") ;;
  lift (
    product ← get response "product";
    language ← get response "language";
    model ← get response "model";
    serial ← get response "serial";
    macAddr ← get response "macAddr";
    name ← get response "name";
    generation ← get response "generation";
    Return (SysInfo (coalesce_none_or_empty product) (coalesce_none_or_empty language)
                    (coalesce_none_or_empty model) (coalesce_none_or_empty serial)
                    (coalesce_none_or_empty macAddr) (coalesce_none_or_empty name)
                    (coalesce_none_or_empty generation))).

(** Returns the value stored under ["mac"]. *)
Definition get_wake_on_lan_information : M value :=
  bravia_client_initialize ;;
  response <- reraise (request "system" "getSystemSupportedFunction" None "1.0") ;;
  lift (
    n ← len response;
    if negb (Nat.eqb n 1) then Raise BraviaApiError else
    wol_info ← getitem_int response 0;
    option ← getitem_str wol_info "option";
    if negb (eq_str option "WOL") then
      _ ← getitem_str wol_info "option"; Raise BraviaApiError
    else
    getitem_str wol_info "value").

Definition get_wake_on_lan_status : M bool :=
  bravia_client_initialize ;;
  response <- reraise (request "system" "getWolMode" None "1.0") ;;
  lift (
    enabled ← get response "enabled";
    match enabled with
    | VBool b => Return b
    | _ => Raise BraviaApiError
    end).

Definition request_reboot : M unit :=
  bravia_client_initialize ;;
  reraise (request "system" "requestReboot" None "1.0" ;; ret tt).

(** [enabled] defaults to [None]. *)
Definition set_led_status (mode enabled : pyobj) : M unit :=
  bravia_client_initialize ;;
  if negb (arg_is_None enabled) && negb (bool_decide (is_Some (as_bool enabled)))
  then raise TypeError else
  match mode with
  | PyLedMode m =>
      if bool_decide (m = LedMode_UNKNOWN) then raise ValueError else
      match led_mode_name m with
      | None => raise BraviaInternalError
      | Some sent_mode =>
          let params :=
            [("mode", VStr sent_mode)] ++
            match as_bool enabled with
            | Some b => [("status", VBool b)]
            | None => []
            end in
          try_except_HttpError
            (request "system" "setLEDIndicatorStatus" (Some params) "1.1" ;; ret tt)
            (fun code =>
               if error_code_is code ApiErrors_ILLEGAL_STATE
                  || error_code_is code ApiErrors_ILLEGAL_ARGUMENT
               then raise BraviaApiError
               else raise BraviaApiError)
      end
  | _ => raise TypeError
  end.

Definition set_language (language : pyobj) : M unit :=
  bravia_client_initialize ;;
  match as_str language with
  | None => raise TypeError
  | Some l =>
      try_except_HttpError
        (request "system" "setLanguage" (Some [("language", VStr l)]) "1.0" ;; ret tt)
        (fun code =>
           if error_code_is code ApiErrors_ILLEGAL_ARGUMENT then raise BraviaApiError
           else raise BraviaApiError)
  end.

Definition set_power_saving_mode (mode : pyobj) : M unit :=
  bravia_client_initialize ;;
  match mode with
  | PyPowerSavingMode m =>
      if bool_decide (m = PowerSavingMode_UNKNOWN) then raise ValueError else
      match power_saving_mode_name m with
      | None => raise BraviaInternalError
      | Some sent_mode =>
          reraise (request "system" "setPowerSavingMode"
                     (Some [("mode", VStr sent_mode)]) "1.0" ;; ret tt)
      end
  | _ => raise TypeError
  end.

Definition set_wake_on_lan_status (enabled : pyobj) : M unit :=
  bravia_client_initialize ;;
  match as_bool enabled with
  | None => raise TypeError
  | Some b =>
      reraise (request "system" "setWolMode" (Some [("enabled", VBool b)]) "1.0" ;; ret tt)
  end.

End methods.
End System.

(** ** audio.py *)

Module Audio.

(** [class ErrorCode] *)
Definition ILLEGAL_ARGUMENT : Z := 3.
Definition ILLEGAL_STATE : Z := 7.
Definition TARGET_NOT_SUPPORTED : Z := 40800.
Definition VOLUME_OUT_OF_RANGE : Z := 40801.

Record sound_settings := SoundSettings {
  sound_name : value;
  sound_output : AudioOutputs
}.

Record speaker_settings := SpeakerSettings {
  tv_position : option TvPosition;
  subwoofer_level : value;
  subwoofer_frequency : value;
  subwoofer_phase : option SubwooferPhase;
  subwoofer_power : option bool
}.

Record device_info := DeviceInfo {
  device_type : VolumeDevice;
  volume : value;
  muted : bool;
  min_volume : value;
  max_volume : value
}.

Definition output_modes : list (string * AudioOutputs) :=
  [("speaker", SPEAKER); ("speaker_hdmi", SPEAKER_HDMI); ("hdmi", HDMI);
   ("audioSystem", AUDIO_SYSTEM)]%string.

Definition valid_positions : list (string * TvPosition) :=
  [("tableTop", TABLE_TOP); ("wallMount", WALL_MOUNT)]%string.

Definition valid_sub_phases : list (string * SubwooferPhase) :=
  [("normal", NORMAL); ("reverse", REVERSE)]%string.

Definition valid_devices : list (string * VolumeDevice) :=
  [("speaker", SPEAKERS); ("headphone", HEADPHONES)]%string.

Definition valid_requested_devices (d : VolumeDevice) : option string :=
  match d with
  | SPEAKERS => Some "speaker"
  | HEADPHONES => Some "headphone"
  | VolumeDevice_UNKNOWN => None
  end%string.

Section methods.
Context `{Externals}.
Context (http_client : Device) (bravia_client_initialize : M unit).

Definition request := http_request http_client.

Definition get_sound_settings : M (option sound_settings) :=
  bravia_client_initialize ;;
  answer <- try_except_HttpError
    (response <- request "audio" "getSoundSettings"
                   (Some [("target", VStr "outputTerminal")]) "1.1" ;;
     ret (Some response))
    (fun code =>
       if error_code_is code ILLEGAL_ARGUMENT then ret None
       else raise BraviaApiError) ;;
  lift (
    match answer with
    | None => Return None
    | Some (VList response) =>
        if (1 <? length response)%nat then Raise BraviaApiError else
        output_terminal ← getitem_int (VList response) 0;
        currentValue ← get output_terminal "currentValue";
        current_output ← table_get_default output_modes currentValue AudioOutputs_UNKNOWN;
        if bool_decide (current_output = AudioOutputs_UNKNOWN) then
          _ ← get output_terminal "currentValue"; Raise BraviaApiError
        else
        target ← get output_terminal "target";
        Return (Some (SoundSettings (coalesce_none_or_empty target) current_output))
    | Some _ => Raise BraviaApiError
    end).

Definition read_speaker_setting (setting : value) (settings : speaker_settings)
    : outcome speaker_settings :=
  target ← get setting "target";
  if eq_str target "tvPosition" then
    currentValue ← get setting "currentValue";
    position ← table_get_default valid_positions currentValue TvPosition_UNKNOWN;
    if bool_decide (position = TvPosition_UNKNOWN) then
      _ ← get setting "currentValue"; Raise BraviaApiError
    else
    Return (SpeakerSettings (Some position) (subwoofer_level settings)
              (subwoofer_frequency settings) (subwoofer_phase settings)
              (subwoofer_power settings))
  else if eq_str target "subwooferLevel" then
    currentValue ← get setting "currentValue";
    Return (SpeakerSettings (tv_position settings) currentValue
              (subwoofer_frequency settings) (subwoofer_phase settings)
              (subwoofer_power settings))
  else if eq_str target "subwooferFreq" then
    currentValue ← get setting "currentValue";
    Return (SpeakerSettings (tv_position settings) (subwoofer_level settings)
              currentValue (subwoofer_phase settings) (subwoofer_power settings))
  else if eq_str target "subwooferPhase" then
    currentValue ← get setting "currentValue";
    phase ← table_get_default valid_sub_phases currentValue SubwooferPhase_UNKNOWN;
    if bool_decide (phase = SubwooferPhase_UNKNOWN) then
      _ ← get setting "currentValue"; Raise BraviaApiError
    else
    Return (SpeakerSettings (tv_position settings) (subwoofer_level settings)
              (subwoofer_frequency settings) (Some phase) (subwoofer_power settings))
  else if eq_str target "subwooferPower" then
    currentValue ← get setting "currentValue";
    Return (SpeakerSettings (tv_position settings) (subwoofer_level settings)
              (subwoofer_frequency settings) (subwoofer_phase settings)
              (Some (eq_str currentValue "on")))
  else Return settings.

Definition get_speaker_settings : M speaker_settings :=
  bravia_client_initialize ;;
  response <- request "audio" "getSpeakerSettings" (Some [("target", VStr "")]) "1.0" ;;
  lift (
    match response with
    | VList response =>
        for_each response read_speaker_setting
          (SpeakerSettings None VNone VNone None None)
    | _ => Raise BraviaApiError
    end).

Definition read_device (this_device : value) (devices : list device_info)
    : outcome (list device_info) :=
  target ← get this_device "target";
  device_type ← table_get valid_devices target;
  match device_type with
  | None => Return devices
  | Some device_type =>
      volume ← get this_device "volume";
      mute ← get this_device "mute";
      minVolume ← get this_device "minVolume";
      maxVolume ← get this_device "maxVolume";
      Return (devices ++ [DeviceInfo device_type volume (truthy mute) minVolume maxVolume])
  end.

Definition get_volume_information : M (list device_info) :=
  bravia_client_initialize ;;
  response <- request "audio" "getVolumeInformation" None "1.0" ;;
  lift (
    match response with
    | VList response => for_each response read_device []
    | _ => Raise BraviaApiError
    end).

Definition set_mute (mute : pyobj) : M unit :=
  bravia_client_initialize ;;
  match as_bool mute with
  | None => raise TypeError
  | Some b =>
      request "audio" "setAudioMute" (Some [("status", VBool b)]) "1.0" ;; ret tt
  end.

Definition mute : M unit := set_mute (PyValue (VBool true)).

Definition unmute : M unit := set_mute (PyValue (VBool false)).

(** [show_ui] defaults to [True], [device] to [None].  [volume_str] is
    [str(volume)], computed where the type of [volume] is tested. *)
Definition set_volume (volume show_ui device : pyobj) : M unit :=
  bravia_client_initialize ;;
  if negb (arg_is_None device)
     && negb (match device with PyVolumeDevice _ => true | _ => false end)
  then raise TypeError else
  if match device with PyVolumeDevice VolumeDevice_UNKNOWN => true | _ => false end
  then raise ValueError else
  volume_str <-
    match volume with
    | PyValue (VInt z) => ret (str_int z)
    | PyValue (VStr s) =>
        pprint (VStr s) ;;
        if negb (re_match_relative_volume s) then raise ValueError else ret s
    | _ => raise TypeError
    end ;;
  match as_bool show_ui with
  | None => raise TypeError
  | Some ui =>
      target <-
        match device with
        | PyVolumeDevice d =>
            match valid_requested_devices d with
            | Some t => ret t
            | None => raise BraviaApiError
            end
        | _ => ret ""%string
        end ;;
      try_except_HttpError
        (request "audio" "setAudioVolume"
           (Some [("target", VStr target); ("volume", VStr volume_str);
                  ("ui", VStr (if ui then "on" else "off"))]) "1.2" ;;
         ret tt)
        (fun code =>
           if error_code_is code TARGET_NOT_SUPPORTED then raise BraviaApiError
           else if error_code_is code VOLUME_OUT_OF_RANGE then raise BraviaApiError
           else raise BraviaApiError)
  end.

Definition set_volume_level (volume show_ui device : pyobj) : M unit :=
  match as_int volume with
  | None => raise TypeError
  | Some _ => set_volume volume show_ui device
  end.

Definition increase_volume (increase_by show_ui device : pyobj) : M unit :=
  match as_int increase_by with
  | None => raise TypeError
  | Some n => set_volume (PyValue (VStr ("+" ++ str_int n))) show_ui device
  end.

Definition decrease_volume (decrease_by show_ui device : pyobj) : M unit :=
  match as_int decrease_by with
  | None => raise TypeError
  | Some n => set_volume (PyValue (VStr ("-" ++ str_int n))) show_ui device
  end.

End methods.
End Audio.

(** ** braviaclient.py *)

Module BraviaClient.
Section client.
Context `{Externals}.
Context (http_client : Device).

(** Lines 56 to 68 of [initialize]: the check of the reported version. *)
Definition check_api_version (interface_info : System.interface_info) : M unit :=
  let api_version := System.interface_version interface_info in
  if is_None api_version then raise ApiError else
  too_new <- lift (
    reported ← version_parse api_version;
    upper ← version_parse (VStr "4.0.0");
    Return (version_ge reported upper)) ;;
  if too_new : bool then raise ApiError else
  too_old <- lift (
    reported ← version_parse api_version;
    lower ← version_parse (VStr "3.0.0");
    Return (version_lt reported lower)) ;;
  if too_old : bool then raise ApiError else
  set_initialized true.

(** [initialize] calls [self.system.get_interface_information()], which
    itself starts with [self.bravia_client.initialize()].  Python bounds
    the depth of nested calls and raises [RecursionError] beyond it:
    [depth] is the number of nested activations of [initialize] still
    available. *)
Fixpoint initialize (depth : nat) : M unit :=
  already <- get_initialized ;;
  if already : bool then ret tt else
  match depth with
  | O => raise RecursionError
  | S depth' =>
      interface_info <-
        try_except_HttpError
          (System.get_interface_information http_client (initialize depth'))
          (fun _ => raise ApiError) ;;
      check_api_version interface_info
  end.

End client.
End BraviaClient.

(** ** The public operations of a client *)

(** [client.audio.m(...)] and [client.system.m(...)] for a client built on
    the device [http_client]: the objects [Audio] and [System] hold the
    client itself as [bravia_client]. *)
Module Api.

Inductive call : Type :=
| initialize
| get_sound_settings
| get_speaker_settings
| get_volume_information
| mute
| unmute
| set_mute (mute : pyobj)
| set_volume_level (volume show_ui device : pyobj)
| increase_volume (increase_by show_ui device : pyobj)
| decrease_volume (decrease_by show_ui device : pyobj)
| set_volume (volume show_ui device : pyobj)
| power_on
| power_off
| set_power_status (power_state : pyobj)
| get_power_status
| get_current_time
| get_interface_information
| get_led_status
| get_network_settings (interface : pyobj)
| get_power_saving_mode
| get_remote_control_info
| get_remote_access_status
| get_system_information
| get_wake_on_lan_information
| get_wake_on_lan_status
| request_reboot
| set_led_status (mode enabled : pyobj)
| set_language (language : pyobj)
| set_power_saving_mode (mode : pyobj)
| set_wake_on_lan_status (enabled : pyobj).

(** Running an operation for its effects and its way of ending. *)
Definition void {A} (m : M A) : M unit := fun w =>
  match m w with
  | (Return _, w') => (Return tt, w')
  | (Raise e, w') => (Raise e, w')
  end.

Section run.
Context `{Externals}.
Context (http_client : Device) (depth : nat).

Definition gate : M unit := BraviaClient.initialize http_client depth.

Definition run (c : call) : M unit :=
  match c with
  | initialize => gate
  | get_sound_settings => void (Audio.get_sound_settings http_client gate)
  | get_speaker_settings => void (Audio.get_speaker_settings http_client gate)
  | get_volume_information => void (Audio.get_volume_information http_client gate)
  | mute => Audio.mute http_client gate
  | unmute => Audio.unmute http_client gate
  | set_mute m => Audio.set_mute http_client gate m
  | set_volume_level v u d => Audio.set_volume_level http_client gate v u d
  | increase_volume v u d => Audio.increase_volume http_client gate v u d
  | decrease_volume v u d => Audio.decrease_volume http_client gate v u d
  | set_volume v u d => Audio.set_volume http_client gate v u d
  | power_on => System.power_on http_client gate
  | power_off => System.power_off http_client gate
  | set_power_status p => System.set_power_status http_client gate p
  | get_power_status => void (System.get_power_status http_client gate)
  | get_current_time => void (System.get_current_time http_client gate)
  | get_interface_information => void (System.get_interface_information http_client gate)
  | get_led_status => void (System.get_led_status http_client gate)
  | get_network_settings i => void (System.get_network_settings http_client gate i)
  | get_power_saving_mode => void (System.get_power_saving_mode http_client gate)
  | get_remote_control_info => void (System.get_remote_control_info http_client gate)
  | get_remote_access_status => void (System.get_remote_access_status http_client gate)
  | get_system_information => void (System.get_system_information http_client gate)
  | get_wake_on_lan_information => void (System.get_wake_on_lan_information http_client gate)
  | get_wake_on_lan_status => void (System.get_wake_on_lan_status http_client gate)
  | request_reboot => System.request_reboot http_client gate
  | set_led_status m e => System.set_led_status http_client gate m e
  | set_language l => System.set_language http_client gate l
  | set_power_saving_mode m => System.set_power_saving_mode http_client gate m
  | set_wake_on_lan_status e => System.set_wake_on_lan_status http_client gate e
  end.

End run.
End Api.

(** ** A concrete outside world, to run the operations on examples *)

Module Reference.

(** Versions made of release segments only, as in ["3.0.0"]; anything else
    is refused. *)
Definition digit_value (c : ascii) : N := N.of_nat (nat_of_ascii c) - 48.

Fixpoint segments (s : string) (current : option N) (done : list N) : option (list N) :=
  match s with
  | EmptyString =>
      match current with Some n => Some (done ++ [n]) | None => None end
  | String c s' =>
      if Ascii.eqb c "."%char then
        match current with Some n => segments s' None (done ++ [n]) | None => None end
      else if is_ascii_digit c then
        segments s' (Some (10 * default 0%N current + digit_value c)%N) done
      else None
  end.

Fixpoint release_compare (a b : list N) : comparison :=
  match a, b with
  | [], _ => if forallb (N.eqb 0) b then Eq else Lt
  | _, [] => if forallb (N.eqb 0) a then Eq else Gt
  | x :: a', y :: b' => match (x ?= y)%N with Eq => release_compare a' b' | c => c end
  end.

Definition parse (v : value) : outcome (list N) :=
  match v with
  | VStr s => match segments s None [] with Some l => Return l | None => Raise LibraryError end
  | _ => Raise TypeError
  end.

Definition externals : Externals := {|
  coalesce_none_or_empty v := match v with VStr EmptyString => VNone | _ => v end;
  ApiErrors_ILLEGAL_ARGUMENT := 3;
  ApiErrors_ILLEGAL_STATE := 7;
  Version := list N;
  version_parse := parse;
  version_ge a b := match release_compare a b with Lt => false | _ => true end;
  version_lt a b := match release_compare a b with Lt => true | _ => false end;
  datetime := string;
  date_parser_parse v := match v with VStr s => Return s | _ => Raise TypeError end;
  re_match_relative_volume := ascii_relative_volume;
  re_match_relative_volume_ascii := fun _ _ => eq_refl
|}.

(** A client that has passed the gate, and devices with a fixed answer. *)
Definition ready_client : world := World true [] [].
Definition answering (v : value) : Device := fun _ _ => Result v.
Definition failing (code : option Z) : Device := fun _ _ => Error code.
Definition gate (dev : Device) : M unit := Api.gate (H:=externals) dev 0.

End Reference.

(** ** Observations on operations *)

(** The computation sends nothing and leaves the flag alone. *)
Definition quiet {A} (m : M A) : Prop :=
  forall w, initialized (m w).2 = initialized w /\ sent (m w).2 = sent w.

(** The computation leaves the flag alone and sends at most one request,
    which satisfies [P]. *)
Definition single {A} (P : request -> Prop) (m : M A) : Prop :=
  forall w, initialized (m w).2 = initialized w /\
    (sent (m w).2 = sent w \/ exists r, sent (m w).2 = sent w ++ [r] /\ P r).


(** The devices [set_volume] accepts, with the target it sends for each. *)
Definition accepted_device (device : pyobj) (target : string) : Prop :=
  (device = PyValue VNone /\ target = ""%string) \/
  (device = PyVolumeDevice SPEAKERS /\ target = "speaker"%string) \/
  (device = PyVolumeDevice HEADPHONES /\ target = "headphone"%string).

(** The volumes [set_volume] accepts, with [str(volume)] for each. *)
Definition accepted_volume `{Externals} (volume : pyobj) (volume_str : string) : Prop :=
  (exists z, volume = PyValue (VInt z) /\ volume_str = str_int z) \/
  (exists s, volume = PyValue (VStr s) /\ re_match_relative_volume s = true /\
             volume_str = s).




(** The calls that test an argument before they pass the gate. *)
Definition refuses_before_gate (c : Api.call) : bool :=
  match c with
  | Api.set_volume_level v _ _ | Api.increase_volume v _ _ | Api.decrease_volume v _ _ =>
      bool_decide (as_int v = None)
  | _ => false
  end.

(** Reading the dictionary built by [get_remote_control_info]. *)
Definition dict_get (d : list (value * value)) (k : value) : option value :=
  snd <$> List.find (fun kv => System.key_eq (fst kv) k) d.

(** The targets [get_speaker_settings] reads. *)
Definition speaker_targets : list string :=
  ["tvPosition"; "subwooferLevel"; "subwooferFreq"; "subwooferPhase"; "subwooferPower"]%string.

(** * Properties *)

(** ** The gate *)

Section gate.
Context `{Externals}.
Context (dev : Device).

Lemma initialize_ready (depth : nat) (w : world) :
  initialized w = true ->
  BraviaClient.initialize dev depth w = (Return tt, w).
Proof.
  intros Hw. destruct depth; cbn; unfold bind, get_initialized; now rewrite Hw.
Qed.

Lemma initialize_unready (depth : nat) (w : world) :
  initialized w = false ->
  BraviaClient.initialize dev depth w = (Raise RecursionError, w).
Proof.
  intros Hw. induction depth as [|depth IH]; cbn.
  - unfold bind, get_initialized. now rewrite Hw.
  - rewrite Hw. unfold bind at 1.
    unfold try_except_HttpError, System.get_interface_information.
    unfold bind at 1. now rewrite IH.
Qed.

Lemma bind_gate_ready {A} depth (k : unit -> M A) (w : world) :
  initialized w = true ->
  bind (Api.gate dev depth) k w = k tt w.
Proof. intros Hw. unfold bind, Api.gate. now rewrite initialize_ready. Qed.

Lemma bind_gate_unready {A} depth (k : unit -> M A) (w : world) :
  initialized w = false ->
  bind (Api.gate dev depth) k w = (Raise RecursionError, w).
Proof. intros Hw. unfold bind, Api.gate. now rewrite initialize_unready. Qed.

End gate.

(** ** What an operation does to the client *)

Section effects.
Context `{Externals}.
Context (dev : Device).

Lemma quiet_ret {A} (a : A) : quiet (ret a).
Proof. by intros w. Qed.

Lemma quiet_raise {A} e : quiet (@raise A e).
Proof. by intros w. Qed.

Lemma quiet_lift {A} (o : outcome A) : quiet (lift o).
Proof. by intros w. Qed.

Lemma quiet_pprint v : quiet (pprint v).
Proof. by intros w. Qed.

Lemma quiet_bind {A B} (m : M A) (k : A -> M B) :
  quiet m -> (forall x, quiet (k x)) -> quiet (bind m k).
Proof.
  intros Hm Hk w. unfold bind. specialize (Hm w).
  destruct (m w) as [[x|e] w1]; simpl in *; [|done].
  destruct (Hk x w1) as [-> ->]. done.
Qed.

Lemma quiet_gate depth : quiet (Api.gate dev depth).
Proof.
  intros w. unfold Api.gate. destruct (initialized w) eqn:Hw.
  - by rewrite initialize_ready.
  - by rewrite initialize_unready.
Qed.

Lemma single_quiet {A} P (m : M A) : quiet m -> single P m.
Proof. intros Hm w. destruct (Hm w). auto. Qed.

Lemma single_request P e m p v :
  P (Request e m p v) -> single P (http_request dev e m p v).
Proof.
  intros HP w. unfold http_request.
  destruct (dev _ _); simpl; (split; [done|]); right; eauto.
Qed.

Lemma single_bind_l {A B} P (m : M A) (k : A -> M B) :
  quiet m -> (forall x, single P (k x)) -> single P (bind m k).
Proof.
  intros Hm Hk w. unfold bind. specialize (Hm w).
  destruct (m w) as [[x|e] w1]; simpl in *.
  - destruct Hm as [Hi Hs]. destruct (Hk x w1) as [Hi' Hs'].
    rewrite Hi', Hi. split; [done|]. by rewrite <- Hs.
  - destruct Hm; auto.
Qed.

Lemma single_bind_r {A B} P (m : M A) (k : A -> M B) :
  single P m -> (forall x, quiet (k x)) -> single P (bind m k).
Proof.
  intros Hm Hk w. unfold bind. specialize (Hm w).
  destruct (m w) as [[x|e] w1]; simpl in *; [|done].
  destruct (Hk x w1) as [-> ->]. done.
Qed.

Lemma single_try {A} P (body : M A) handler :
  single P body -> (forall c, quiet (handler c)) -> single P (try_except_HttpError body handler).
Proof.
  intros Hm Hk w. unfold try_except_HttpError. specialize (Hm w).
  destruct (body w) as [[x|[]] w1]; simpl in *; try done.
  destruct (Hk error_code w1) as [-> ->]. done.
Qed.

Lemma single_void {A} P (m : M A) : single P m -> single P (Api.void m).
Proof.
  intros Hm w. unfold Api.void. specialize (Hm w).
  by destruct (m w) as [[x|e] w1].
Qed.










Ltac unfold_ops :=
  unfold Api.run,
    Audio.mute, Audio.unmute, Audio.set_volume_level,
    Audio.increase_volume, Audio.decrease_volume,
    System.power_on, System.power_off;
  unfold Audio.get_sound_settings, Audio.get_speaker_settings, Audio.get_volume_information,
    Audio.set_mute, Audio.set_volume,
    System.set_power_status, System.get_power_status,
    System.get_current_time, System.get_interface_information, System.get_led_status,
    System.get_network_settings, System.get_power_saving_mode,
    System.get_remote_control_info, System.get_remote_access_status,
    System.get_system_information, System.get_wake_on_lan_information,
    System.get_wake_on_lan_status, System.request_reboot, System.set_led_status,
    System.set_language, System.set_power_saving_mode, System.set_wake_on_lan_status;
  unfold System.reraise, System.request, Audio.request.

Ltac quiet_tac :=
  repeat (intros; first
    [ apply quiet_ret | apply quiet_raise | apply quiet_lift | apply quiet_pprint
    | apply quiet_gate | apply quiet_bind | case_match ]).

Ltac single_tac :=
  intros; first
    [ apply single_request; simpl; done
    | apply single_void; single_tac
    | apply single_try; [ single_tac | solve [quiet_tac] ]
    | apply single_bind_l; [ solve [quiet_tac] | single_tac ]
    | apply single_bind_r; [ single_tac | solve [quiet_tac] ]
    | apply single_quiet; solve [quiet_tac]
    | case_match; single_tac ].




Lemma single_run depth (c : Api.call) :
  single (fun r => method r = "getInterfaceInformation"%string ->
                   c = Api.get_interface_information)
         (Api.run dev depth c).
Proof.
  destruct c; unfold_ops.
  all: try (apply single_quiet; apply quiet_gate).
  all: single_tac.
Qed.


End effects.

(** ** Running an operation *)

Section running.
Context `{Externals}.
Context (dev : Device).

Lemma request_result e m p v w x :
  dev (sent w) (Request e m p v) = Result x ->
  http_request dev e m p v w = (Return x, logged w (Request e m p v)).
Proof. intros Hd. unfold http_request. by rewrite Hd. Qed.

Lemma request_error e m p v w code :
  dev (sent w) (Request e m p v) = Error code ->
  http_request dev e m p v w = (Raise (HttpError code), logged w (Request e m p v)).
Proof. intros Hd. unfold http_request. by rewrite Hd. Qed.

Lemma bind_gate {A} depth (k : unit -> M A) (w : world) :
  bind (Api.gate dev depth) k w =
  if initialized w then k tt w else (Raise RecursionError, w).
Proof.
  destruct (initialized w) eqn:Hw.
  - by apply bind_gate_ready.
  - by apply bind_gate_unready.
Qed.

End running.

Ltac run_op :=
  rewrite ?bind_gate;
  unfold System.reraise, System.request, Audio.request, try_except_HttpError, bind,
    lift, ret, raise.

Section system_properties.
Context `{Externals}.
Context (dev : Device) (depth : nat).

Local Abbreviation gate := (Api.gate dev depth).

Lemma eq_str_spec v lit : eq_str v lit = true <-> v = VStr lit.
Proof.
  destruct v; simpl; try (split; [done|by intros [=]]).
  rewrite String.eqb_eq. split; [by intros ->|by intros [= ->]].
Qed.

(** C6: on a client that has passed the gate, [get_power_status] returns
    [True] exactly when the device reports the status ["active"], [False]
    exactly when it reports ["standby"], and raises [BraviaApiError] for
    every other reported status. *)
Theorem get_power_status_reported w resp status :
  initialized w = true ->
  dev (sent w) (Request "system" "getPowerStatus" None "1.0") = Result resp ->
  getitem_str resp "status" = Return status ->
  let out := (System.get_power_status dev gate w).1 in
  (out = Return true <-> status = VStr "active") /\
  (out = Return false <-> status = VStr "standby") /\
  (status <> VStr "active" -> status <> VStr "standby" -> out = Raise BraviaApiError).
Proof.
  intros Hw Hd Hs out. subst out. unfold System.get_power_status.
  run_op. rewrite Hw. rewrite (request_result _ _ _ _ _ _ _ Hd). simpl.
  rewrite Hs. simpl.
  destruct (eq_str status "standby") eqn:E1.
  - apply eq_str_spec in E1 as ->. simpl. repeat split; try done.
  - destruct (eq_str status "active") eqn:E2.
    + apply eq_str_spec in E2 as ->. repeat split; try done.
    + simpl. repeat split; try done; intros ->; by rewrite ?String.eqb_refl in *.
Qed.
End system_properties.
Section client_properties.
Context `{Externals}.
Context (dev : Device).

(** The version check of [initialize], taken alone: a reported version that
    parses is accepted exactly when it is neither at least ["4.0.0"] nor
    below ["3.0.0"], and accepting it sets the flag. *)
Lemma check_api_version_range info w reported upper lower :
  version_parse (System.interface_version info) = Return reported ->
  version_parse (VStr "4.0.0") = Return upper ->
  version_parse (VStr "3.0.0") = Return lower ->
  System.interface_version info <> VNone ->
  BraviaClient.check_api_version info w =
  if version_ge reported upper || version_lt reported lower
  then (Raise ApiError, w)
  else (Return tt, World true (sent w) (pprinted w)).
Proof.
  intros Hr Hu Hl Hn. unfold BraviaClient.check_api_version.
  destruct (System.interface_version info) eqn:Hv; try done;
    simpl; unfold bind, lift, raise; rewrite Hr, Hu, Hl; simpl;
    destruct (version_ge reported upper); simpl; try done;
    destruct (version_lt reported lower); done.
Qed.

Lemma check_api_version_None info w :
  System.interface_version info = VNone ->
  BraviaClient.check_api_version info w = (Raise ApiError, w).
Proof. intros Hv. unfold BraviaClient.check_api_version. by rewrite Hv. Qed.

(** C1: [initialize] on a client that is not yet initialized never reaches
    the device: it re-enters itself through [get_interface_information]
    until Python's bound on nested calls, and ends in [RecursionError] with
    the client unchanged, whatever the device would report. *)
Theorem initialize_fresh_client_recursion depth :
  BraviaClient.initialize dev depth fresh_client = (Raise RecursionError, fresh_client).
Proof. by apply initialize_unready. Qed.



(** The three operations that set an error code apart. *)
Lemma get_sound_settings_run depth w :
  let r := Request "audio" "getSoundSettings" (Some [("target", VStr "outputTerminal")]) "1.1" in
  let run := Audio.get_sound_settings dev (Api.gate dev depth) w in
  run =
  if initialized w then
    match dev (sent w) r with
    | Error code =>
        (if error_code_is code Audio.ILLEGAL_ARGUMENT then Return None
         else Raise BraviaApiError, logged w r)
    | Result _ => (run.1, logged w r)
    end
  else (Raise RecursionError, w).
Proof.
  intros r run. subst run. unfold Audio.get_sound_settings. rewrite bind_gate.
  destruct (initialized w); [|done]. run_op. unfold http_request. fold r.
  destruct (dev (sent w) r); [done|]. by destruct (error_code_is _ _).
Qed.






End client_properties.

Section decoding.
Context `{Externals}.
Context (dev : Device) (depth : nat).

Local Abbreviation gate := (Api.gate dev depth).

(** Operations of the shape: pass the gate, send one request whose
    [HttpError] becomes a [BraviaApiError], decode the answer. *)
Lemma decode_run {A} e m p v (decode : value -> outcome A) w :
  bind gate (fun _ =>
    bind (System.reraise (System.request dev e m p v)) (fun response =>
      lift (decode response))) w =
  if initialized w then
    match dev (sent w) (Request e m p v) with
    | Result response => (decode response, logged w (Request e m p v))
    | Error _ => (Raise BraviaApiError, logged w (Request e m p v))
    end
  else (Raise RecursionError, w).
Proof.
  rewrite bind_gate. destruct (initialized w); [|done].
  run_op. unfold http_request. by destruct (dev (sent w) _).
Qed.

(** C10: [get_remote_access_status] returns [True] only when the device
    reports the current value ["on"] and [False] only when it reports the
    string ["false"]; a reported ["off"] never gives a boolean. *)
Theorem get_remote_access_status_values w :
  let r := Request "system" "getRemoteDeviceSettings"
             (Some [("target", VStr "accessPermission")]) "1.0" in
  let reports (s : string) :=
    exists response first,
      dev (sent w) r = Result response /\
      getitem_int response 0 = Return first /\
      getitem_str first "currentValue" = Return (VStr s) in
  let out := (System.get_remote_access_status dev gate w).1 in
  (out = Return true -> reports "on"%string) /\
  (out = Return false -> reports "false"%string) /\
  (reports "off"%string -> forall b, out <> Return b).
Proof.
  intros r reports out. subst out reports. unfold System.get_remote_access_status.
  rewrite decode_run. fold r.
  destruct (initialized w); [|by split_and!; [..|intros _ ?]].
  destruct (dev (sent w) r) as [response|]; [|by split_and!; [..|intros _ ?]].
  cbn [fst].
  destruct (len response) as [n|]; [|by split_and!; [..|intros _ ?]]. cbn.
  destruct (Nat.eqb n 1); [|by split_and!; [..|intros _ ?]]. cbn.
  destruct (getitem_int response 0) as [first|] eqn:Hf; [|by split_and!; [..|intros _ ?]]. cbn.
  destruct (getitem_str first "currentValue") as [cv|] eqn:Hc;
    [|by split_and!; [..|intros _ ?]]. cbn.
  destruct (eq_str cv "on") eqn:Hon.
  { apply eq_str_spec in Hon as ->. split_and!; [by eauto|done|].
    intros (? & ? & ? & ? & ?). simplify_eq. congruence. }
  destruct (eq_str cv "false") eqn:Hfalse.
  { apply eq_str_spec in Hfalse as ->. split_and!; [done|by eauto|].
    intros (? & ? & ? & ? & ?). simplify_eq. congruence. }
  destruct (getitem_str response "currentValue"); by split_and!; [..|intros _ ?].
Qed.

End decoding.

Section audio_properties.
Context `{Externals}.
Context (dev : Device) (depth : nat).

Local Abbreviation gate := (Api.gate dev depth).

(** C8: an empty list passes the shape checks and the first element is
    read without a guard: [get_sound_settings], and [get_network_settings]
    called with an interface other than [None], end in [IndexError]. *)
Theorem empty_list_response_IndexError w :
  initialized w = true ->
  (dev (sent w) (Request "audio" "getSoundSettings"
                   (Some [("target", VStr "outputTerminal")]) "1.1") = Result (VList []) ->
   (Audio.get_sound_settings dev gate w).1 = Raise IndexError) /\
  (forall interface request_interface,
     arg_is_None interface = false ->
     as_str (or_empty_str interface) = Some request_interface ->
     dev (sent w) (Request "system" "getNetworkSettings"
                     (Some [("netif", VStr request_interface)]) "1.0") = Result (VList []) ->
     (System.get_network_settings dev gate interface w).1 = Raise IndexError).
Proof.
  intros Hw. split.
  - intros Hd. unfold Audio.get_sound_settings. rewrite bind_gate, Hw.
    run_op. by rewrite (request_result _ _ _ _ _ _ _ Hd).
  - intros interface request_interface Hn Hi Hd.
    unfold System.get_network_settings. rewrite bind_gate, Hw, Hi.
    run_op. rewrite (request_result _ _ _ _ _ _ _ Hd). simpl. by rewrite Hn.
Qed.

Lemma str_int_negative n : n < 0 -> exists s, str_int n = String "-" s.
Proof. destruct n; try lia. intros _. unfold str_int. simpl. eauto. Qed.

Lemma string_of_uint_ascii d : is_ascii (NilEmpty.string_of_uint d) = true.
Proof. induction d; simpl; by rewrite ?IHd. Qed.

Lemma str_int_ascii n : is_ascii (str_int n) = true.
Proof.
  unfold str_int. destruct n as [|p|p]; [done|..]; simpl; unfold NilZero.string_of_uint;
    destruct (Pos.to_uint p) eqn:Hp; try done; rewrite <- Hp;
    apply string_of_uint_ascii.
Qed.

(** Past the gate the format test does its work: for a negative integer
    [n], [increase_volume(n)] and [decrease_volume(n)] raise [ValueError]
    and send nothing, the string handed to [set_volume] having two signs. *)
Lemma relative_volume_negative w n show_ui device :
  initialized w = true ->
  n < 0 ->
  (device = PyValue VNone \/ exists d, device = PyVolumeDevice d) ->
  let up := Audio.increase_volume dev gate (PyValue (VInt n)) show_ui device w in
  let down := Audio.decrease_volume dev gate (PyValue (VInt n)) show_ui device w in
  up.1 = Raise ValueError /\ sent up.2 = sent w /\
  down.1 = Raise ValueError /\ sent down.2 = sent w.
Proof.
  intros Hw Hn Hdev up down. subst up down.
  unfold Audio.increase_volume, Audio.decrease_volume; cbn [as_int]; unfold Audio.set_volume.
  rewrite !bind_gate, Hw.
  change ("+" ++ str_int n)%string with (String "+" (str_int n)).
  change ("-" ++ str_int n)%string with (String "-" (str_int n)).
  pose proof (str_int_ascii n) as Ha.
  rewrite !re_match_relative_volume_ascii by (simpl; by rewrite Ha).
  destruct (str_int_negative n Hn) as [s ->].
  by destruct Hdev as [->|[[] ->]].
Qed.

(** C9: on the client the constructor gives, [increase_volume(n)] and
    [decrease_volume(n)] never reach the format test of [set_volume]: for
    every integer [n], negative or not, they end in [RecursionError] at
    the gate, and nothing is sent. *)
Theorem relative_volume_fresh_client n show_ui device :
  Audio.increase_volume dev gate (PyValue (VInt n)) show_ui device fresh_client
    = (Raise RecursionError, fresh_client) /\
  Audio.decrease_volume dev gate (PyValue (VInt n)) show_ui device fresh_client
    = (Raise RecursionError, fresh_client).
Proof.
  unfold Audio.increase_volume, Audio.decrease_volume; cbn [as_int]; unfold Audio.set_volume.
  by rewrite !bind_gate.
Qed.

End audio_properties.

Section enumeration_properties.
Context `{Externals}.
Context (dev : Device) (depth : nat).

Local Abbreviation gate := (Api.gate dev depth).

Lemma for_each_app {A S} (body : A -> S -> outcome S) l1 l2 acc :
  for_each (l1 ++ l2) body acc = acc' ← for_each l1 body acc; for_each l2 body acc'.
Proof.
  revert acc. induction l1 as [|x l1 IH]; intros acc; simpl; [done|].
  destruct (body x acc); simpl; [apply IH|done].
Qed.

Lemma read_speaker_setting_unknown d (s : string) settings :
  (d !! "target"%string = Some (VStr "tvPosition") /\
   table_get Audio.valid_positions (VStr s) = Return None) \/
  (d !! "target"%string = Some (VStr "subwooferPhase") /\
   table_get Audio.valid_sub_phases (VStr s) = Return None) ->
  d !! "currentValue"%string = Some (VStr s) ->
  Audio.read_speaker_setting (VDict d) settings = Raise BraviaApiError.
Proof.
  unfold Audio.read_speaker_setting, get, table_get_default.
  intros [[-> Ht]|[-> Ht]] ->; simpl default; cbn [mbind outcome_bind eq_str];
    rewrite Ht; reflexivity.
Qed.

Lemma read_device_unknown d (s : string) devices :
  d !! "target"%string = Some (VStr s) ->
  table_get Audio.valid_devices (VStr s) = Return None ->
  Audio.read_device (VDict d) devices = Return devices.
Proof.
  unfold Audio.read_device, get. intros -> Ht. simpl default.
  cbn [mbind outcome_bind]. rewrite Ht. reflexivity.
Qed.

(** C4, as the code has it: an enumeration string that is not in the table
    of the operation makes [get_sound_settings], [get_led_status],
    [get_power_saving_mode] and [get_speaker_settings] raise
    [BraviaApiError]; [get_volume_information] leaves the entry out. *)
Theorem unknown_enumeration_string w (s : string) :
  initialized w = true ->
  (forall terminal,
     dev (sent w) (Request "audio" "getSoundSettings"
                     (Some [("target", VStr "outputTerminal")]) "1.1")
       = Result (VList [terminal]) ->
     get terminal "currentValue" = Return (VStr s) ->
     table_get Audio.output_modes (VStr s) = Return None ->
     (Audio.get_sound_settings dev gate w).1 = Raise BraviaApiError) /\
  (forall d,
     dev (sent w) (Request "system" "getLEDIndicatorStatus" None "1.0") = Result (VDict d) ->
     d !! "mode"%string = Some (VStr s) ->
     table_get System.valid_led_modes (VStr s) = Return None ->
     (System.get_led_status dev gate w).1 = Raise BraviaApiError) /\
  (forall d,
     dev (sent w) (Request "system" "getPowerSavingMode" None "1.0") = Result (VDict d) ->
     d !! "mode"%string = Some (VStr s) ->
     table_get System.valid_power_saving_modes (VStr s) = Return None ->
     (System.get_power_saving_mode dev gate w).1 = Raise BraviaApiError) /\
  (forall before d after,
     dev (sent w) (Request "audio" "getSpeakerSettings" (Some [("target", VStr "")]) "1.0")
       = Result (VList (before ++ VDict d :: after)) ->
     is_Raise (for_each before Audio.read_speaker_setting
                 (Audio.SpeakerSettings None VNone VNone None None)) = false ->
     (d !! "target"%string = Some (VStr "tvPosition") /\
      table_get Audio.valid_positions (VStr s) = Return None) \/
     (d !! "target"%string = Some (VStr "subwooferPhase") /\
      table_get Audio.valid_sub_phases (VStr s) = Return None) ->
     d !! "currentValue"%string = Some (VStr s) ->
     (Audio.get_speaker_settings dev gate w).1 = Raise BraviaApiError) /\
  (forall before d after,
     dev (sent w) (Request "audio" "getVolumeInformation" None "1.0")
       = Result (VList (before ++ VDict d :: after)) ->
     d !! "target"%string = Some (VStr s) ->
     table_get Audio.valid_devices (VStr s) = Return None ->
     (Audio.get_volume_information dev gate w).1 =
     for_each (before ++ after) Audio.read_device []).
Proof.
  intros Hw. split_and!.
  - intros terminal Hd Hc Ht. unfold Audio.get_sound_settings.
    rewrite bind_gate, Hw. run_op. rewrite (request_result _ _ _ _ _ _ _ Hd).
    cbn [fst length Nat.ltb Nat.leb getitem_int lookup list_lookup mbind outcome_bind].
    rewrite Hc. cbn [mbind outcome_bind]. unfold table_get_default. rewrite Ht. reflexivity.
  - intros d Hd Hm Ht. unfold System.get_led_status. rewrite decode_run, Hw, Hd.
    cbn [fst]. unfold contains_str, getitem_str, get, table_get_default. rewrite Hm.
    destruct (d !! "status"%string) as [st|];
      rewrite ?bool_decide_eq_true_2 by eauto;
      rewrite ?bool_decide_eq_false_2 by (by intros []);
      cbn -[table_get eq_str];
      repeat (destruct (eq_str _ _); cbn -[table_get eq_str]);
      rewrite Ht; reflexivity.
  - intros d Hd Hm Ht. unfold System.get_power_saving_mode. rewrite decode_run, Hw, Hd.
    cbn [fst]. unfold contains_str, get, table_get_default. rewrite Hm.
    rewrite bool_decide_eq_true_2 by eauto. simpl default. cbn [mbind outcome_bind].
    rewrite Ht. reflexivity.
  - intros before d after Hd Hb Hbad Hc. unfold Audio.get_speaker_settings.
    rewrite bind_gate, Hw. run_op. rewrite (request_result _ _ _ _ _ _ _ Hd). cbn [fst].
    rewrite for_each_app.
    destruct (for_each before _ _) as [settings|]; [|done]. cbn [mbind outcome_bind for_each].
    by rewrite (read_speaker_setting_unknown d s).
  - intros before d after Hd Ht Hn. unfold Audio.get_volume_information.
    rewrite bind_gate, Hw. run_op. rewrite (request_result _ _ _ _ _ _ _ Hd). cbn [fst].
    rewrite !for_each_app. destruct (for_each before _ _) as [devices|]; [|done].
    cbn [mbind outcome_bind for_each]. by rewrite (read_device_unknown d s).
Qed.

End enumeration_properties.

Section error_properties.
Context `{Externals}.
Context (dev : Device) (depth : nat).

Local Abbreviation gate := (Api.gate dev depth).

(** C5, as the code has it: past the gate, an error code reported by the
    device is raised as [BraviaApiError] by [set_power_status],
    [get_power_status] and, for codes other than 3, [get_sound_settings];
    so is a status that is present but neither ["standby"] nor ["active"]
    in [get_power_status], and an answer that is not a list, or a list of
    more than one element, in [get_sound_settings].  [set_power_status]
    does not look at the answer.  The [HttpError] itself is seen where it
    is not caught, as in [set_mute]. *)
Theorem errors_share_BraviaApiError w code :
  initialized w = true ->
  (forall b,
     dev (sent w) (Request "system" "setPowerStatus" (Some [("status", VBool b)]) "1.0")
       = Error code ->
     (System.set_power_status dev gate (PyValue (VBool b)) w).1 = Raise BraviaApiError) /\
  (forall b response,
     dev (sent w) (Request "system" "setPowerStatus" (Some [("status", VBool b)]) "1.0")
       = Result response ->
     (System.set_power_status dev gate (PyValue (VBool b)) w).1 = Return tt) /\
  (dev (sent w) (Request "system" "getPowerStatus" None "1.0") = Error code ->
   (System.get_power_status dev gate w).1 = Raise BraviaApiError) /\
  (forall response status,
     dev (sent w) (Request "system" "getPowerStatus" None "1.0") = Result response ->
     getitem_str response "status" = Return status ->
     status <> VStr "standby" -> status <> VStr "active" ->
     (System.get_power_status dev gate w).1 = Raise BraviaApiError) /\
  (error_code_is code Audio.ILLEGAL_ARGUMENT = false ->
   dev (sent w) (Request "audio" "getSoundSettings"
                   (Some [("target", VStr "outputTerminal")]) "1.1") = Error code ->
   (Audio.get_sound_settings dev gate w).1 = Raise BraviaApiError) /\
  (forall response,
     dev (sent w) (Request "audio" "getSoundSettings"
                     (Some [("target", VStr "outputTerminal")]) "1.1") = Result response ->
     (forall l, response = VList l -> (1 < length l)%nat) ->
     (Audio.get_sound_settings dev gate w).1 = Raise BraviaApiError) /\
  (forall b,
     dev (sent w) (Request "audio" "setAudioMute" (Some [("status", VBool b)]) "1.0")
       = Error code ->
     (Audio.set_mute dev gate (PyValue (VBool b)) w).1 = Raise (HttpError code)).
Proof.
  intros Hw. split_and!.
  - intros b Hd. unfold System.set_power_status. rewrite bind_gate, Hw. cbn [as_bool].
    run_op. by rewrite (request_error _ _ _ _ _ _ _ Hd).
  - intros b response Hd. unfold System.set_power_status. rewrite bind_gate, Hw.
    cbn [as_bool]. run_op. by rewrite (request_result _ _ _ _ _ _ _ Hd).
  - intros Hd. unfold System.get_power_status. by rewrite decode_run, Hw, Hd.
  - intros response status Hd Hs Hsb Hac. unfold System.get_power_status.
    rewrite decode_run, Hw, Hd. cbn [fst]. rewrite Hs. cbn [mbind outcome_bind].
    destruct (eq_str status "standby") eqn:E1; [by apply eq_str_spec in E1|].
    cbn [mbind outcome_bind].
    destruct (eq_str status "active") eqn:E2; [by apply eq_str_spec in E2|]. done.
  - intros Hx Hd. rewrite get_sound_settings_run, Hw, Hd. by rewrite Hx.
  - intros response Hd Hl. unfold Audio.get_sound_settings. rewrite bind_gate, Hw.
    run_op. rewrite (request_result _ _ _ _ _ _ _ Hd). cbn [fst].
    destruct response as [| | | |l|]; try done.
    specialize (Hl l eq_refl). apply Nat.ltb_lt in Hl. by rewrite Hl.
  - intros b Hd. unfold Audio.set_mute. rewrite bind_gate, Hw. cbn [as_bool].
    run_op. by rewrite (request_error _ _ _ _ _ _ _ Hd).
Qed.

(** C7: on the client the constructor gives, [set_volume] reaches none of
    its tests and sends nothing: whatever the arguments, it ends in
    [RecursionError] at the gate. *)
Theorem set_volume_fresh_client volume show_ui device :
  Audio.set_volume dev gate volume show_ui device fresh_client
  = (Raise RecursionError, fresh_client).
Proof. unfold Audio.set_volume. by rewrite bind_gate. Qed.

(** Past the gate each test of [set_volume] does what is expected of it,
    the others being passed: the device, then the volume and its format,
    then [show_ui]; and a call that passes them all sends [setAudioVolume]
    with the target, [str(volume)] and ["on"] or ["off"]. *)
Lemma set_volume_checks w volume show_ui device :
  initialized w = true ->
  let run := Audio.set_volume dev gate volume show_ui device w in
  (arg_is_None device = false -> (forall d, device <> PyVolumeDevice d) ->
   run.1 = Raise TypeError /\ sent run.2 = sent w) /\
  (device = PyVolumeDevice VolumeDevice_UNKNOWN ->
   run.1 = Raise ValueError /\ sent run.2 = sent w) /\
  (forall target, accepted_device device target ->
     (as_int volume = None -> as_str volume = None ->
      run.1 = Raise TypeError /\ sent run.2 = sent w) /\
     (forall s, volume = PyValue (VStr s) -> re_match_relative_volume s = false ->
      run.1 = Raise ValueError /\ sent run.2 = sent w) /\
     (forall volume_str, accepted_volume volume volume_str ->
        (as_bool show_ui = None -> run.1 = Raise TypeError /\ sent run.2 = sent w) /\
        (forall ui, show_ui = PyValue (VBool ui) ->
           sent run.2 = sent w ++
             [Request "audio" "setAudioVolume"
                (Some [("target", VStr target); ("volume", VStr volume_str);
                       ("ui", VStr (if ui then "on" else "off"))]) "1.2"]))).
Proof.
  intros Hw run. subst run. unfold Audio.set_volume. rewrite bind_gate, Hw.
  split_and!.
  - intros Hn Hd. rewrite Hn. destruct device; try done. by destruct (Hd d).
  - by intros ->.
  - intros target Hdev.
    assert (forall A (k : M A),
      (if negb (arg_is_None device)
          && negb match device with PyVolumeDevice _ => true | _ => false end
       then raise TypeError
       else if match device with
               | PyVolumeDevice VolumeDevice_UNKNOWN => true | _ => false end
            then raise ValueError else k) = k) as Hpass.
    { intros A k. by destruct Hdev as [[-> _]|[[-> _]|[-> _]]]. }
    rewrite Hpass. split_and!.
    + intros Hi Hs. by destruct volume as [[]| | | | | |].
    + intros s -> Hm. unfold bind, pprint, raise. by rewrite Hm.
    + intros volume_str Hvol.
      assert (exists w1, sent w1 = sent w /\ forall A (k : string -> M A),
        bind match volume with
             | PyValue (VInt z) => ret (str_int z)
             | PyValue (VStr s) =>
                 bind (pprint (VStr s)) (fun _ =>
                   if negb (re_match_relative_volume s) then raise ValueError else ret s)
             | _ => raise TypeError
             end k w = k volume_str w1) as (w1 & Hw1 & Hk).
      { destruct Hvol as [(z & -> & ->)|(s & -> & Hm & ->)].
        - by exists w.
        - eexists. split; [|intros A k; unfold bind, pprint; rewrite Hm; reflexivity]. done. }
      rewrite Hk. split.
      * intros ->. split; [done|exact Hw1].
      * intros ui ->. cbn [as_bool]. run_op. unfold http_request.
        destruct Hdev as [[-> ->]|[[-> ->]|[-> ->]]]; cbn;
          destruct (dev (sent w1) _); repeat destruct (error_code_is _ _); cbn;
          by rewrite Hw1.
Qed.

End error_properties.


(** ** The properties at work on concrete clients and devices *)



Lemma unknown_enumeration_string_witness :
  let dev := Reference.answering (VList [VDict {[ "currentValue"%string := VStr "optical" ]}]) in
  (Audio.get_sound_settings (H:=Reference.externals) dev (Reference.gate dev)
     Reference.ready_client).1 = Raise BraviaApiError.
Proof.
  intros dev.
  exact (proj1 (unknown_enumeration_string (H:=Reference.externals) dev 0
                  Reference.ready_client "optical" eq_refl)
           (VDict {[ "currentValue"%string := VStr "optical" ]}) eq_refl eq_refl eq_refl).
Defined.

(** The device lists a volume target that is not in [valid_devices], and
    [get_volume_information] returns the empty list without raising. *)
Lemma get_volume_information_unknown_target_not_raised :
  let dev := Reference.answering (VList [VDict {[ "target"%string := VStr "bluetooth" ]}]) in
  table_get Audio.valid_devices (VStr "bluetooth") = Return None /\
  (Audio.get_volume_information dev (Reference.gate dev) Reference.ready_client).1 = Return [].
Proof. by vm_compute. Qed.

Lemma errors_share_BraviaApiError_witness :
  let dev := Reference.failing (Some 7) in
  (System.get_power_status dev (Reference.gate dev) Reference.ready_client).1
  = Raise BraviaApiError.
Proof.
  intros dev.
  exact (proj1 (proj2 (proj2 (errors_share_BraviaApiError (H:=Reference.externals) dev 0
                                Reference.ready_client (Some 7) eq_refl))) eq_refl).
Defined.

(** An error code from the device and an unexpected status end in the same
    exception class. *)
Lemma device_error_and_unexpected_response_same_class :
  let failing := Reference.failing (Some 7) in
  let odd := Reference.answering (VDict {[ "status"%string := VStr "booting" ]}) in
  exists e,
    (System.get_power_status failing (Reference.gate failing) Reference.ready_client).1
      = Raise e /\
    (System.get_power_status odd (Reference.gate odd) Reference.ready_client).1 = Raise e.
Proof. exists BraviaApiError. by vm_compute. Qed.

Lemma get_power_status_reported_witness :
  let dev := Reference.answering (VDict {[ "status"%string := VStr "active" ]}) in
  (System.get_power_status dev (Reference.gate dev) Reference.ready_client).1 = Return true.
Proof.
  intros dev.
  apply (proj1 (get_power_status_reported (H:=Reference.externals) dev 0
                  Reference.ready_client _ (VStr "active") eq_refl eq_refl eq_refl)).
  reflexivity.
Defined.

Lemma empty_list_response_IndexError_witness :
  let dev := Reference.answering (VList []) in
  (Audio.get_sound_settings (H:=Reference.externals) dev (Reference.gate dev)
     Reference.ready_client).1 = Raise IndexError.
Proof.
  intros dev.
  exact (proj1 (empty_list_response_IndexError (H:=Reference.externals) dev 0
                  Reference.ready_client eq_refl) eq_refl).
Defined.

Lemma get_remote_access_status_values_witness :
  let dev := Reference.answering (VList [VDict {[ "currentValue"%string := VStr "off" ]}]) in
  (System.get_remote_access_status dev (Reference.gate dev) Reference.ready_client).1
    <> Return true /\
  (System.get_remote_access_status dev (Reference.gate dev) Reference.ready_client).1
    <> Return false.
Proof.
  intros dev.
  assert (exists response first,
    dev [] (Request "system" "getRemoteDeviceSettings"
              (Some [("target", VStr "accessPermission")]) "1.0") = Result response /\
    getitem_int response 0 = Return first /\
    getitem_str first "currentValue" = Return (VStr "off")) as Hoff.
  { exists (VList [VDict {[ "currentValue"%string := VStr "off" ]}]),
           (VDict {[ "currentValue"%string := VStr "off" ]}).
    by split_and!. }
  split;
    apply (proj2 (proj2 (get_remote_access_status_values (H:=Reference.externals) dev 0
                           Reference.ready_client)) Hoff).
Defined.

Section more_client_properties.
Context `{Externals}.
Context (dev : Device) (depth : nat).

Local Abbreviation gate := (Api.gate dev depth).

(** X1: on a client whose flag is not set no operation succeeds and none
    reaches the device. *)
Theorem unready_client_never_reaches_device c w :
  initialized w = false ->
  Api.run dev depth c w =
  (Raise (if refuses_before_gate c then TypeError else RecursionError), w).
Proof.
  intros Hw. destruct c; unfold refuses_before_gate; unfold Api.run, Api.void,
    Audio.mute, Audio.unmute, Audio.set_volume_level,
    Audio.increase_volume, Audio.decrease_volume,
    System.power_on, System.power_off;
  unfold Audio.get_sound_settings, Audio.get_speaker_settings, Audio.get_volume_information,
    Audio.set_mute, Audio.set_volume,
    System.set_power_status, System.get_power_status,
    System.get_current_time, System.get_interface_information, System.get_led_status,
    System.get_network_settings, System.get_power_saving_mode,
    System.get_remote_control_info, System.get_remote_access_status,
    System.get_system_information, System.get_wake_on_lan_information,
    System.get_wake_on_lan_status, System.request_reboot, System.set_led_status,
    System.set_language, System.set_power_saving_mode, System.set_wake_on_lan_status.
  all: try (by rewrite bind_gate, Hw).
  all: try (by unfold Api.gate; rewrite initialize_unready).
  all: try (destruct (as_int _) eqn:Hv;
            [rewrite bool_decide_eq_false_2 by done; by rewrite bind_gate, Hw
            |by rewrite bool_decide_eq_true_2]).
Qed.

(** X2: [power_on] and [power_off] behave as [set_power_status] with
    [True] and [False] in every state of the client, and on a client that
    has passed the gate they send [setPowerStatus] with that status. *)
Theorem power_on_off_requests w :
  System.power_on dev gate w = System.set_power_status dev gate (PyValue (VBool true)) w /\
  System.power_off dev gate w = System.set_power_status dev gate (PyValue (VBool false)) w /\
  (initialized w = true ->
   sent (System.power_on dev gate w).2 =
     sent w ++ [Request "system" "setPowerStatus" (Some [("status", VBool true)]) "1.0"] /\
   sent (System.power_off dev gate w).2 =
     sent w ++ [Request "system" "setPowerStatus" (Some [("status", VBool false)]) "1.0"]).
Proof.
  unfold System.power_on, System.power_off.
  rewrite !(bind_gate dev depth (fun _ => System.set_power_status _ _ _)).
  unfold System.set_power_status. rewrite !bind_gate.
  destruct (initialized w) eqn:Hw; [|done]. split_and!; [done..|intros _].
  cbn [as_bool]. run_op. unfold http_request. split; by destruct (dev (sent w) _).
Qed.

End more_client_properties.

Section more_audio_properties.
Context `{Externals}.
Context (dev : Device) (depth : nat).

Local Abbreviation gate := (Api.gate dev depth).

Lemma string_of_uint_digits d :
  digits_to_end (NilEmpty.string_of_uint d) = true /\
  (d <> Decimal.Nil ->
   exists c s, NilEmpty.string_of_uint d = String c s /\ is_ascii_digit c = true /\
               digits_to_end s = true).
Proof.
  induction d as [|d [IH _]|d [IH _]|d [IH _]|d [IH _]|d [IH _]|d [IH _]|d [IH _]
                  |d [IH _]|d [IH _]|d [IH _]];
    (split; [simpl; by rewrite ?IH|intros Hd; try done; simpl; eauto]).
Qed.

Lemma str_int_nonnegative n :
  0 <= n ->
  exists c s, str_int n = String c s /\ is_ascii_digit c = true /\ digits_to_end s = true.
Proof.
  intros Hn. unfold str_int. destruct n as [|p|p]; [by eexists _, _| |lia].
  simpl. unfold NilZero.string_of_uint.
  destruct (Pos.to_uint p) eqn:Hp; [by eexists _, _|..];
    by apply (proj2 (string_of_uint_digits _)).
Qed.

(** X3: for an integer [n >= 0], on a client that has passed the gate with
    an accepted device and a boolean [show_ui], [increase_volume(n)] and
    [decrease_volume(n)] pass the format test and send ["+n"] and ["-n"]. *)
Theorem relative_volume_nonnegative w n (ui : bool) device target :
  initialized w = true ->
  0 <= n ->
  accepted_device device target ->
  let request_with (volume : string) :=
    Request "audio" "setAudioVolume"
      (Some [("target", VStr target); ("volume", VStr volume);
             ("ui", VStr (if ui then "on" else "off"))]) "1.2" in
  sent (Audio.increase_volume dev gate (PyValue (VInt n)) (PyValue (VBool ui)) device w).2
    = sent w ++ [request_with ("+" ++ str_int n)%string] /\
  sent (Audio.decrease_volume dev gate (PyValue (VInt n)) (PyValue (VBool ui)) device w).2
    = sent w ++ [request_with ("-" ++ str_int n)%string].
Proof.
  intros Hw Hn Hdev request_with.
  destruct (str_int_nonnegative n Hn) as (c & s & Hs & Hc & Hds).
  unfold Audio.increase_volume, Audio.decrease_volume; cbn [as_int]; unfold Audio.set_volume.
  rewrite !bind_gate, Hw. subst request_with. cbv beta.
  change ("+" ++ str_int n)%string with (String "+" (str_int n)).
  change ("-" ++ str_int n)%string with (String "-" (str_int n)).
  pose proof (str_int_ascii n) as Ha.
  rewrite !re_match_relative_volume_ascii by (simpl; by rewrite Ha).
  rewrite Hs. unfold ascii_relative_volume, is_sign.
  split; destruct Hdev as [[-> ->]|[[-> ->]|[-> ->]]];
    cbn -[is_ascii_digit digits_to_end]; unfold bind, pprint, ret, raise, try_except_HttpError,
      Audio.request, http_request; cbn -[is_ascii_digit digits_to_end]; rewrite Hc, Hds;
    cbn; destruct (dev _ _); repeat destruct (error_code_is _ _); done.
Qed.

Lemma read_device_step this_device devices devices' :
  Audio.read_device this_device devices = Return devices' ->
  devices' = devices \/
  exists d, devices' = devices ++ [d] /\ Audio.device_type d <> VolumeDevice_UNKNOWN.
Proof.
  unfold Audio.read_device.
  destruct (get this_device "target") as [target|]; [|done]. cbn [mbind outcome_bind].
  destruct (table_get Audio.valid_devices target) as [[ty|]|] eqn:Ht; cbn [mbind outcome_bind];
    [|by intros [= <-]; left|done].
  destruct (get this_device "volume"); [|done]. cbn [mbind outcome_bind].
  destruct (get this_device "mute"); [|done]. cbn [mbind outcome_bind].
  destruct (get this_device "minVolume"); [|done]. cbn [mbind outcome_bind].
  destruct (get this_device "maxVolume"); [|done]. cbn [mbind outcome_bind].
  intros [= <-]. right. eexists. split; [done|]. simpl.
  destruct target; try done. simpl in Ht.
  repeat (case_match; simplify_eq/=; try done).
Qed.

Lemma read_devices_invariant response devices devices' :
  for_each response Audio.read_device devices = Return devices' ->
  exists new, devices' = devices ++ new /\ (length new <= length response)%nat /\
    Forall (fun d => Audio.device_type d <> VolumeDevice_UNKNOWN) new.
Proof.
  revert devices. induction response as [|x response IH]; intros devices; simpl.
  - intros [= <-]. exists []. by rewrite app_nil_r.
  - destruct (Audio.read_device x devices) as [devices1|] eqn:Hx; [|done].
    cbn [mbind outcome_bind]. intros (new & -> & Hl & Hf)%IH.
    apply read_device_step in Hx as [->|(d & -> & Hd)].
    + exists new. split_and!; [done|lia|done].
    + exists (d :: new). rewrite <- app_assoc. split_and!; [done|simpl; lia|by constructor].
Qed.

(** X4: what [get_volume_information] returns has at most one entry per
    entry of the response, and no entry of type [VolumeDevice.UNKNOWN]. *)
Theorem get_volume_information_devices w response devices :
  initialized w = true ->
  dev (sent w) (Request "audio" "getVolumeInformation" None "1.0") = Result (VList response) ->
  (Audio.get_volume_information dev gate w).1 = Return devices ->
  (length devices <= length response)%nat /\
  Forall (fun d => Audio.device_type d <> VolumeDevice_UNKNOWN) devices.
Proof.
  intros Hw Hd. unfold Audio.get_volume_information. rewrite bind_gate, Hw.
  run_op. rewrite (request_result _ _ _ _ _ _ _ Hd). cbn [fst].
  by intros (new & -> & ? & ?)%read_devices_invariant.
Qed.

End more_audio_properties.

Section more_system_properties.
Context `{Externals}.
Context (dev : Device) (depth : nat).

Local Abbreviation gate := (Api.gate dev depth).

(** X5: on a client that has passed the gate, [set_led_status] sends a
    mode name for a member of [LedMode] other than [UNKNOWN], and
    [get_led_status], on a client that has passed the gate, decodes that
    name to the same member. *)
Theorem led_mode_round_trip w m enabled :
  initialized w = true ->
  m <> LedMode_UNKNOWN ->
  (enabled = PyValue VNone \/ exists b, enabled = PyValue (VBool b)) ->
  exists name status,
    sent (System.set_led_status dev gate (PyLedMode m) enabled w).2 =
      sent w ++ [Request "system" "setLEDIndicatorStatus"
                   (Some (("mode", VStr name) :: status)) "1.1"] /\
    (status = match enabled with PyValue (VBool b) => [("status", VBool b)] | _ => [] end) /\
    forall w' d,
      initialized w' = true ->
      dev (sent w') (Request "system" "getLEDIndicatorStatus" None "1.0") = Result (VDict d) ->
      d !! "mode"%string = Some (VStr name) ->
      exists led_status,
        (System.get_led_status dev gate w').1 = Return (System.LedInfo led_status (Some m)).
Proof.
  intros Hw Hm Hen.
  assert (exists name, System.led_mode_name m = Some name /\
            table_get_default System.valid_led_modes (VStr name) LedMode_UNKNOWN = Return m)
    as (name & Hname & Hback) by (destruct m; first [congruence | eexists; split; reflexivity]).
  exists name, (match enabled with PyValue (VBool b) => [("status", VBool b)] | _ => [] end).
  split_and!; [|done|].
  - unfold System.set_led_status. rewrite bind_gate, Hw.
    rewrite (bool_decide_eq_false_2 (m = LedMode_UNKNOWN)) by done. rewrite Hname.
    destruct Hen as [->|[b ->]]; cbn; unfold try_except_HttpError, bind, System.request,
      http_request, ret, raise; destruct (dev _ _); repeat destruct (error_code_is _ _); done.
  - intros w' d Hw' Hd Hmode. unfold System.get_led_status. rewrite decode_run, Hw', Hd.
    cbn [fst]. unfold contains_str, getitem_str, get. rewrite Hmode.
    rewrite (bool_decide_eq_true_2 (is_Some (Some _))) by eauto. simpl default.
    destruct (d !! "status"%string) as [st|];
      rewrite ?bool_decide_eq_true_2 by eauto;
      rewrite ?bool_decide_eq_false_2 by (by intros []);
      cbn -[table_get_default eq_str];
      repeat (destruct (eq_str _ _); cbn -[table_get_default eq_str]);
      rewrite Hback; cbn; rewrite bool_decide_eq_false_2 by done; by eexists.
Qed.

(** X6: on a client that has passed the gate, [set_power_saving_mode]
    sends a mode name for a member of [PowerSavingMode] other than
    [UNKNOWN], and [get_power_saving_mode], on a client that has passed the
    gate, decodes that name to the same member. *)
Theorem power_saving_mode_round_trip w m :
  initialized w = true ->
  m <> PowerSavingMode_UNKNOWN ->
  exists name,
    sent (System.set_power_saving_mode dev gate (PyPowerSavingMode m) w).2 =
      sent w ++ [Request "system" "setPowerSavingMode" (Some [("mode", VStr name)]) "1.0"] /\
    forall w' d,
      initialized w' = true ->
      dev (sent w') (Request "system" "getPowerSavingMode" None "1.0") = Result (VDict d) ->
      d !! "mode"%string = Some (VStr name) ->
      (System.get_power_saving_mode dev gate w').1 = Return (Some m).
Proof.
  intros Hw Hm.
  assert (exists name, System.power_saving_mode_name m = Some name /\
            table_get_default System.valid_power_saving_modes (VStr name)
              PowerSavingMode_UNKNOWN = Return m)
    as (name & Hname & Hback) by (destruct m; first [congruence | eexists; split; reflexivity]).
  exists name. split.
  - unfold System.set_power_saving_mode. rewrite bind_gate, Hw.
    rewrite bool_decide_eq_false_2 by done. rewrite Hname.
    unfold System.reraise, try_except_HttpError, bind, System.request, http_request, ret, raise.
    by destruct (dev _ _).
  - intros w' d Hw' Hd Hmode. unfold System.get_power_saving_mode.
    rewrite decode_run, Hw', Hd. cbn [fst]. unfold contains_str, get. rewrite Hmode.
    rewrite bool_decide_eq_true_2 by eauto. simpl default.
    cbn -[table_get_default]. rewrite Hback. cbn. by rewrite bool_decide_eq_false_2.
Qed.

(** X7: when the device reports one entry whose current value is neither
    ["on"] nor ["false"], [get_remote_access_status] ends in [TypeError]:
    the message of the intended [BraviaApiError] indexes the list with a
    string. *)
Theorem get_remote_access_status_unexpected_value w first value :
  initialized w = true ->
  dev (sent w) (Request "system" "getRemoteDeviceSettings"
                  (Some [("target", VStr "accessPermission")]) "1.0") = Result (VList [first]) ->
  getitem_str first "currentValue" = Return value ->
  value <> VStr "on" -> value <> VStr "false" ->
  (System.get_remote_access_status dev gate w).1 = Raise TypeError.
Proof.
  intros Hw Hd Hv Hon Hfalse. unfold System.get_remote_access_status.
  rewrite decode_run, Hw, Hd. cbn [fst]. cbn -[getitem_str eq_str]. rewrite Hv.
  cbn -[getitem_str eq_str].
  destruct (eq_str value "on") eqn:E1; [by apply eq_str_spec in E1|].
  destruct (eq_str value "false") eqn:E2; [by apply eq_str_spec in E2|]. done.
Qed.

(** X8: [get_wake_on_lan_status] returns the boolean stored under
    ["enabled"], and raises [BraviaApiError] when the entry is missing or is
    not a boolean. *)
Theorem get_wake_on_lan_status_enabled w d :
  initialized w = true ->
  dev (sent w) (Request "system" "getWolMode" None "1.0") = Result (VDict d) ->
  (System.get_wake_on_lan_status dev gate w).1 =
  match d !! "enabled"%string with
  | Some (VBool b) => Return b
  | _ => Raise BraviaApiError
  end.
Proof.
  intros Hw Hd. unfold System.get_wake_on_lan_status. rewrite decode_run, Hw, Hd.
  cbn [fst]. unfold get. by destruct (d !! "enabled"%string) as [[]|].
Qed.

(** X9: a response that is not a dictionary is read with [.get] all the
    same, and [AttributeError] escapes from [get_interface_information],
    [get_system_information] and [get_wake_on_lan_status]. *)
Theorem response_not_a_dictionary w response :
  initialized w = true ->
  (forall d, response <> VDict d) ->
  (dev (sent w) (Request "system" "getInterfaceInformation" None "1.0") = Result response ->
   (System.get_interface_information dev gate w).1 = Raise AttributeError) /\
  (dev (sent w) (Request "system" "getSystemInformation" None "1.0") = Result response ->
   (System.get_system_information dev gate w).1 = Raise AttributeError) /\
  (dev (sent w) (Request "system" "getWolMode" None "1.0") = Result response ->
   (System.get_wake_on_lan_status dev gate w).1 = Raise AttributeError).
Proof.
  intros Hw Hr.
  assert (forall key, get response key = Raise AttributeError) as Hget.
  { intros key. destruct response; try done. by destruct (Hr d). }
  split_and!; intros Hd.
  - unfold System.get_interface_information. rewrite decode_run, Hw, Hd. cbn [fst].
    rewrite !Hget. reflexivity.
  - unfold System.get_system_information. rewrite decode_run, Hw, Hd. cbn [fst].
    rewrite !Hget. reflexivity.
  - unfold System.get_wake_on_lan_status. rewrite decode_run, Hw, Hd. cbn [fst].
    rewrite !Hget. reflexivity.
Qed.

(** X10: the [BraviaInternalError] of [set_led_status] and
    [set_power_saving_mode] is never raised. *)
Theorem setters_never_raise_BraviaInternalError w mode enabled :
  (System.set_led_status dev gate mode enabled w).1 <> Raise BraviaInternalError /\
  (System.set_power_saving_mode dev gate mode w).1 <> Raise BraviaInternalError.
Proof.
  unfold System.set_led_status, System.set_power_saving_mode. rewrite !bind_gate.
  destruct (initialized w); [|done].
  unfold System.reraise, try_except_HttpError, bind, System.request, http_request, ret, raise.
  split.
  - destruct (_ && _); [done|]. destruct mode as [| | | | |m|]; try done.
    destruct m; simpl; try done; destruct (dev (sent w) _);
      repeat destruct (error_code_is _ _); done.
  - destruct mode as [| | | | | |m]; try done.
    destruct m; simpl; try done; by destruct (dev (sent w) _).
Qed.

End more_system_properties.

Section more_decoding_properties.
Context `{Externals}.
Context (dev : Device) (depth : nat).

Local Abbreviation gate := (Api.gate dev depth).

Lemma bind_Return {A B} (o : outcome A) (k : A -> outcome B) b :
  o ≫= k = Return b -> exists a, o = Return a /\ k a = Return b.
Proof. destruct o; [by eauto|done]. Qed.

Lemma read_speaker_setting_known setting settings settings' :
  Audio.tv_position settings <> Some TvPosition_UNKNOWN ->
  Audio.subwoofer_phase settings <> Some SubwooferPhase_UNKNOWN ->
  Audio.read_speaker_setting setting settings = Return settings' ->
  Audio.tv_position settings' <> Some TvPosition_UNKNOWN /\
  Audio.subwoofer_phase settings' <> Some SubwooferPhase_UNKNOWN.
Proof.
  intros Hp Hph. unfold Audio.read_speaker_setting.
  intros (target & _ & Hk)%bind_Return. revert Hk.
  repeat (destruct (eq_str target _)).
  - intros (cv & _ & (p & _ & Hk)%bind_Return)%bind_Return. revert Hk.
    case_bool_decide; [by destruct (get _ _)|]. intros [= <-]. simpl. split; congruence.
  - intros (cv & _ & [= <-])%bind_Return. done.
  - intros (cv & _ & [= <-])%bind_Return. done.
  - intros (cv & _ & (p & _ & Hk)%bind_Return)%bind_Return. revert Hk.
    case_bool_decide; [by destruct (get _ _)|]. intros [= <-]. simpl. split; congruence.
  - intros (cv & _ & [= <-])%bind_Return. done.
  - by intros [= <-].
Qed.

Lemma read_speaker_settings_known response settings settings' :
  Audio.tv_position settings <> Some TvPosition_UNKNOWN ->
  Audio.subwoofer_phase settings <> Some SubwooferPhase_UNKNOWN ->
  for_each response Audio.read_speaker_setting settings = Return settings' ->
  Audio.tv_position settings' <> Some TvPosition_UNKNOWN /\
  Audio.subwoofer_phase settings' <> Some SubwooferPhase_UNKNOWN.
Proof.
  revert settings. induction response as [|x response IH]; intros settings Hp Hph; simpl.
  - by intros [= <-].
  - intros (s1 & Hx & Hrest)%bind_Return.
    destruct (read_speaker_setting_known _ _ _ Hp Hph Hx). by apply (IH s1).
Qed.

(** X11: the member [UNKNOWN] of an enumeration is never returned:
    not as the output of [get_sound_settings], nor as the position or the
    phase of [get_speaker_settings], nor as the mode of [get_led_status]
    or of [get_power_saving_mode], whatever the device answers and whatever
    the state of the client. *)
Theorem UNKNOWN_never_returned w :
  (forall settings,
     (Audio.get_sound_settings dev gate w).1 = Return (Some settings) ->
     Audio.sound_output settings <> AudioOutputs_UNKNOWN) /\
  (forall settings,
     (Audio.get_speaker_settings dev gate w).1 = Return settings ->
     Audio.tv_position settings <> Some TvPosition_UNKNOWN /\
     Audio.subwoofer_phase settings <> Some SubwooferPhase_UNKNOWN) /\
  (forall info,
     (System.get_led_status dev gate w).1 = Return info ->
     System.led_mode info <> Some LedMode_UNKNOWN) /\
  (forall mode,
     (System.get_power_saving_mode dev gate w).1 = Return mode ->
     mode <> Some PowerSavingMode_UNKNOWN).
Proof.
  split_and!.
  - intros settings. unfold Audio.get_sound_settings. rewrite bind_gate.
    destruct (initialized w); [|done]. run_op. unfold http_request.
    destruct (dev (sent w) _) as [response|code]; cbn [fst];
      [|by destruct (error_code_is _ _)].
    destruct response as [| | | |l|]; try done. destruct (_ <? _)%nat; [done|].
    intros (t & _ & (cv & _ & (o & _ & Hk)%bind_Return)%bind_Return)%bind_Return.
    revert Hk. case_bool_decide; [by destruct (get _ _)|].
    by intros (target & _ & [= <-])%bind_Return.
  - intros settings. unfold Audio.get_speaker_settings. rewrite bind_gate.
    destruct (initialized w); [|done]. run_op. unfold http_request.
    destruct (dev (sent w) _) as [response|code]; cbn [fst]; [|done].
    destruct response as [| | | |l|]; try done.
    by apply read_speaker_settings_known.
  - intros info. unfold System.get_led_status. rewrite decode_run.
    destruct (initialized w); [|done]. destruct (dev (sent w) _) as [response|]; [|done].
    cbn [fst].
    intros (hs & _ & (st & _ & (hm & _ & (mode & Hmode & [= <-])%bind_Return)
      %bind_Return)%bind_Return)%bind_Return.
    simpl. revert Hmode. destruct hm; [|by intros [= <-]].
    intros (v & _ & (m & _ & Hk)%bind_Return)%bind_Return. revert Hk.
    case_bool_decide; [by destruct (get _ _)|]. intros [= <-]. congruence.
  - intros mode. unfold System.get_power_saving_mode. rewrite decode_run.
    destruct (initialized w); [|done]. destruct (dev (sent w) _) as [response|]; [|done].
    cbn [fst]. intros (hm & _ & Hk)%bind_Return. revert Hk.
    destruct hm; [|by intros [= <-]].
    intros (v & _ & (m & _ & Hk)%bind_Return)%bind_Return. revert Hk.
    case_bool_decide; [by destruct (get _ _)|]. intros [= <-]. congruence.
Qed.

Lemma read_iface_dict d (done : list System.iface_info) :
  System.read_iface (VDict d) done =
  Return (done ++ [System.IfaceInfo
        (coalesce_none_or_empty (default VNone (d !! "netif"%string)))
        (coalesce_none_or_empty (default VNone (d !! "hwAddr"%string)))
        (coalesce_none_or_empty (default VNone (d !! "ipAddrV4"%string)))
        (coalesce_none_or_empty (default VNone (d !! "ipAddrV6"%string)))
        (coalesce_none_or_empty (default VNone (d !! "netmask"%string)))
        (coalesce_none_or_empty (default VNone (d !! "gateway"%string)))
        (coalesce_none_or_empty (default VNone (d !! "dns"%string)))]).
Proof. reflexivity. Qed.

Lemma read_ifaces response (done : list System.iface_info) :
  Forall (fun iface => exists d, iface = VDict d) response ->
  exists new,
    for_each response System.read_iface done = Return (done ++ new) /\
    length new = length response /\
    forall i d, response !! i = Some (VDict d) ->
      System.iface_name <$> new !! i =
      Some (coalesce_none_or_empty (default VNone (d !! "netif"%string))).
Proof.
  intros Hall. revert done. induction Hall as [|x response [d ->] _ IH]; intros done.
  - exists []. by rewrite app_nil_r.
  - destruct (IH (done ++ [System.IfaceInfo
        (coalesce_none_or_empty (default VNone (d !! "netif"%string)))
        (coalesce_none_or_empty (default VNone (d !! "hwAddr"%string)))
        (coalesce_none_or_empty (default VNone (d !! "ipAddrV4"%string)))
        (coalesce_none_or_empty (default VNone (d !! "ipAddrV6"%string)))
        (coalesce_none_or_empty (default VNone (d !! "netmask"%string)))
        (coalesce_none_or_empty (default VNone (d !! "gateway"%string)))
        (coalesce_none_or_empty (default VNone (d !! "dns"%string)))]))
      as (new & Hrun & Hlen & Hnames).
    eexists (_ :: new). split_and!.
    + cbn [for_each]. rewrite read_iface_dict. cbn [mbind outcome_bind].
      rewrite Hrun. by rewrite <- app_assoc.
    + simpl. by rewrite Hlen.
    + intros [|i] d'; simpl; [by intros [= <-]|apply Hnames].
Qed.

(** X12: when every entry of the answer is a dictionary,
    [get_network_settings] without an interface returns one record per
    entry, in order, and with an interface it returns the record of the
    first entry. *)
Theorem get_network_settings_interfaces w interface request_interface response :
  initialized w = true ->
  as_str (or_empty_str interface) = Some request_interface ->
  dev (sent w) (Request "system" "getNetworkSettings"
                  (Some [("netif", VStr request_interface)]) "1.0") = Result (VList response) ->
  Forall (fun iface => exists d, iface = VDict d) response ->
  exists interfaces,
    length interfaces = length response /\
    (forall i d, response !! i = Some (VDict d) ->
       System.iface_name <$> interfaces !! i =
       Some (coalesce_none_or_empty (default VNone (d !! "netif"%string)))) /\
    (System.get_network_settings dev gate interface w).1 =
    if arg_is_None interface then Return (System.AllInterfaces interfaces)
    else match interfaces with
         | first :: _ => Return (System.OneInterface first)
         | [] => Raise IndexError
         end.
Proof.
  intros Hw Hi Hd Hall. destruct (read_ifaces response [] Hall) as (new & Hrun & Hlen & Hn).
  exists new. split_and!; [done..|].
  unfold System.get_network_settings. rewrite bind_gate, Hw, Hi. run_op.
  rewrite (request_result _ _ _ _ _ _ _ Hd). cbn [fst]. rewrite Hrun.
  cbn [mbind outcome_bind app]. by destruct (arg_is_None interface), new.
Qed.

End more_decoding_properties.

Section last_properties.
Context `{Externals}.
Context (dev : Device) (depth : nat).

Local Abbreviation gate := (Api.gate dev depth).

Lemma key_eq_sym a b : System.key_eq a b = System.key_eq b a.
Proof.
  destruct a as [|[]| | | |], b as [|[]| | | |];
    cbv beta iota delta [System.key_eq]; try done;
    try apply Z.eqb_sym; try apply String.eqb_sym.
Qed.

Lemma key_eq_trans a b c :
  System.key_eq a b = true -> System.key_eq b c = true -> System.key_eq a c = true.
Proof.
  destruct a as [|[]| | | |], b as [|[]| | | |], c as [|[]| | | |];
    cbv beta iota delta [System.key_eq Bool.eqb]; try done;
    rewrite ?Z.eqb_eq, ?String.eqb_eq; try congruence; try lia.
Qed.

Lemma key_eq_refl k : System.hashable k = true -> System.key_eq k k = true.
Proof.
  destruct k as [|[]| | | |]; cbv beta iota delta [System.key_eq System.hashable Bool.eqb];
    try done; intros _; [apply Z.eqb_refl|apply String.eqb_refl].
Qed.

Lemma dict_get_set d k v k' :
  dict_get (System.dict_set d k v) k' =
  if System.key_eq k k' then Some v else dict_get d k'.
Proof.
  unfold dict_get. induction d as [|[k0 v0] d IH]; simpl; [by destruct (System.key_eq k k')|].
  destruct (System.key_eq k0 k) eqn:E0; simpl.
  - destruct (System.key_eq k0 k') eqn:E1, (System.key_eq k k') eqn:E2; simpl; try done.
    + rewrite key_eq_sym in E0. by rewrite (key_eq_trans _ _ _ E0 E1) in E2.
    + by rewrite (key_eq_trans _ _ _ E0 E2) in E1.
  - destruct (System.key_eq k0 k') eqn:E1; simpl; [|apply IH].
    destruct (System.key_eq k k') eqn:E2; [|done].
    rewrite key_eq_sym in E2. by rewrite (key_eq_trans _ _ _ E1 E2) in E0.
Qed.

(** X13: in the dictionary returned by [get_remote_control_info] a button
    read later replaces the value of an earlier button of the same name and
    leaves the other names alone. *)
Theorem get_remote_control_info_last_button w info before button codes name code :
  initialized w = true ->
  dev (sent w) (Request "system" "getRemoteControllerInfo" None "1.0")
    = Result (VList [info; VList (before ++ [button])]) ->
  for_each before System.read_button [] = Return codes ->
  getitem_str button "name" = Return name ->
  getitem_str button "value" = Return code ->
  System.hashable name = true ->
  exists result,
    (System.get_remote_control_info dev gate w).1 = Return result /\
    dict_get result name = Some code /\
    forall other, System.key_eq name other = false -> dict_get result other = dict_get codes other.
Proof.
  intros Hw Hd Hb Hn Hc Hh. exists (System.dict_set codes name code). split_and!.
  - unfold System.get_remote_control_info. rewrite decode_run, Hw, Hd. cbn [fst].
    cbn -[for_each]. rewrite for_each_app, Hb. cbn [mbind outcome_bind for_each].
    unfold System.read_button. rewrite Hc, Hn. cbn [mbind outcome_bind]. by rewrite Hh.
  - by rewrite dict_get_set, key_eq_refl.
  - intros other Ho. by rewrite dict_get_set, Ho.
Qed.

Lemma read_speaker_setting_other d settings :
  Forall (fun name => eq_str (default VNone (d !! "target"%string)) name = false)
    speaker_targets ->
  Audio.read_speaker_setting (VDict d) settings = Return settings.
Proof.
  intros Ht. unfold Audio.read_speaker_setting, get. cbn [mbind outcome_bind].
  repeat (apply Forall_cons in Ht as [-> Ht]). done.
Qed.

(** X15: [get_speaker_settings] skips the settings whose target it does not
    know: when the answer holds no other setting, every field of the
    result is [None]. *)
Theorem get_speaker_settings_skips_other_targets w response :
  initialized w = true ->
  dev (sent w) (Request "audio" "getSpeakerSettings" (Some [("target", VStr "")]) "1.0")
    = Result (VList response) ->
  Forall (fun setting => exists d, setting = VDict d /\
            Forall (fun name => eq_str (default VNone (d !! "target"%string)) name = false)
              speaker_targets) response ->
  (Audio.get_speaker_settings dev gate w).1 =
  Return (Audio.SpeakerSettings None VNone VNone None None).
Proof.
  intros Hw Hd Hall. unfold Audio.get_speaker_settings. rewrite bind_gate, Hw.
  run_op. rewrite (request_result _ _ _ _ _ _ _ Hd). cbn [fst]. clear Hd.
  induction Hall as [|x l (d & -> & Ht) _ IH]; [done|].
  cbn [for_each]. rewrite read_speaker_setting_other by done. exact IH.
Qed.

End last_properties.

(** ** The further properties at work *)

Lemma unready_client_never_reaches_device_witness :
  Api.run (H:=Reference.externals) (Reference.answering VNone) 5 Api.get_power_status
    fresh_client = (Raise RecursionError, fresh_client).
Proof.
  exact (unready_client_never_reaches_device (H:=Reference.externals)
           (Reference.answering VNone) 5 Api.get_power_status fresh_client eq_refl).
Defined.

Lemma power_on_off_requests_witness :
  let dev := Reference.answering VNone in
  sent (System.power_on dev (Reference.gate dev) Reference.ready_client).2 =
  [Request "system" "setPowerStatus" (Some [("status", VBool true)]) "1.0"].
Proof.
  intros dev.
  exact (proj1 (proj2 (proj2 (power_on_off_requests (H:=Reference.externals) dev 0
                                Reference.ready_client)) eq_refl)).
Defined.

Lemma relative_volume_nonnegative_witness :
  let dev := Reference.answering VNone in
  sent (Audio.increase_volume (H:=Reference.externals) dev (Reference.gate dev)
          (PyValue (VInt 3))
          (PyValue (VBool false)) (PyVolumeDevice HEADPHONES) Reference.ready_client).2 =
  [Request "audio" "setAudioVolume"
     (Some [("target", VStr "headphone"); ("volume", VStr "+3"); ("ui", VStr "off")]) "1.2"].
Proof.
  intros dev.
  exact (proj1 (relative_volume_nonnegative (H:=Reference.externals) dev 0
                  Reference.ready_client 3 false (PyVolumeDevice HEADPHONES) "headphone"
                  eq_refl (proj1 (Z.leb_le 0 3) eq_refl)
                  (or_intror (or_intror (conj eq_refl eq_refl))))).
Defined.

Lemma get_volume_information_devices_witness :
  (1 <= 2)%nat /\
  Forall (fun d => Audio.device_type d <> VolumeDevice_UNKNOWN)
    [Audio.DeviceInfo SPEAKERS (VInt 12) false (VInt 0) (VInt 100)].
Proof.
  exact (get_volume_information_devices (H:=Reference.externals)
           (Reference.answering
              (VList [VDict {[ "target"%string := VStr "speaker"; "volume"%string := VInt 12;
                               "mute"%string := VBool false; "minVolume"%string := VInt 0;
                               "maxVolume"%string := VInt 100 ]};
                      VDict {[ "target"%string := VStr "bluetooth" ]}]))
           0 Reference.ready_client _ _ eq_refl eq_refl eq_refl).
Defined.

Lemma led_mode_round_trip_witness :
  let dev := Reference.answering (VDict {[ "mode"%string := VStr "Dark" ]}) in
  exists name status,
    sent (System.set_led_status (H:=Reference.externals) dev (Reference.gate dev) (PyLedMode DARK) (PyValue VNone)
            Reference.ready_client).2 =
      [Request "system" "setLEDIndicatorStatus" (Some (("mode", VStr name) :: status)) "1.1"].
Proof.
  intros dev.
  destruct (led_mode_round_trip (H:=Reference.externals) dev 0 Reference.ready_client
              DARK (PyValue VNone) eq_refl ltac:(discriminate) (or_introl eq_refl))
    as (name & status & Hsent & _).
  exists name, status. exact Hsent.
Defined.

Lemma power_saving_mode_round_trip_witness :
  let dev := Reference.answering VNone in
  exists name,
    sent (System.set_power_saving_mode dev (Reference.gate dev) (PyPowerSavingMode LOW)
            Reference.ready_client).2 =
      [Request "system" "setPowerSavingMode" (Some [("mode", VStr name)]) "1.0"].
Proof.
  intros dev.
  destruct (power_saving_mode_round_trip (H:=Reference.externals) dev 0
              Reference.ready_client LOW eq_refl ltac:(discriminate))
    as (name & Hsent & _).
  exists name. exact Hsent.
Defined.

Lemma get_remote_access_status_unexpected_value_witness :
  let dev := Reference.answering (VList [VDict {[ "currentValue"%string := VStr "off" ]}]) in
  (System.get_remote_access_status dev (Reference.gate dev) Reference.ready_client).1
  = Raise TypeError.
Proof.
  intros dev.
  exact (get_remote_access_status_unexpected_value (H:=Reference.externals) dev 0
           Reference.ready_client (VDict {[ "currentValue"%string := VStr "off" ]})
           (VStr "off") eq_refl eq_refl eq_refl ltac:(discriminate) ltac:(discriminate)).
Defined.

Lemma get_wake_on_lan_status_enabled_witness :
  let dev := Reference.answering (VDict {[ "enabled"%string := VBool true ]}) in
  (System.get_wake_on_lan_status dev (Reference.gate dev) Reference.ready_client).1
  = Return true.
Proof.
  intros dev.
  exact (get_wake_on_lan_status_enabled (H:=Reference.externals) dev 0
           Reference.ready_client {[ "enabled"%string := VBool true ]} eq_refl eq_refl).
Defined.

Lemma response_not_a_dictionary_witness :
  let dev := Reference.answering (VList []) in
  (System.get_system_information (H:=Reference.externals) dev (Reference.gate dev)
     Reference.ready_client).1 = Raise AttributeError.
Proof.
  intros dev.
  exact (proj1 (proj2 (response_not_a_dictionary (H:=Reference.externals) dev 0
                         Reference.ready_client (VList []) eq_refl
                         ltac:(discriminate))) eq_refl).
Defined.

Lemma UNKNOWN_never_returned_witness :
  let dev := Reference.answering (VDict {[ "mode"%string := VStr "low" ]}) in
  (System.get_power_saving_mode dev (Reference.gate dev) Reference.ready_client).1
    = Return (Some LOW) /\
  Some LOW <> Some PowerSavingMode_UNKNOWN.
Proof.
  intros dev. split; [reflexivity|].
  exact (proj2 (proj2 (proj2 (UNKNOWN_never_returned (H:=Reference.externals) dev 0
                                Reference.ready_client))) (Some LOW) eq_refl).
Defined.

Lemma get_network_settings_interfaces_witness :
  let dev := Reference.answering (VList [VDict {[ "netif"%string := VStr "eth0" ]}]) in
  exists interfaces,
    length interfaces = 1%nat /\
    (System.get_network_settings (H:=Reference.externals) dev (Reference.gate dev)
       (PyValue VNone) Reference.ready_client).1 = Return (System.AllInterfaces interfaces).
Proof.
  intros dev.
  destruct (get_network_settings_interfaces (H:=Reference.externals) dev 0
              Reference.ready_client (PyValue VNone) ""
              [VDict {[ "netif"%string := VStr "eth0" ]}] eq_refl eq_refl eq_refl
              ltac:(repeat constructor; by eexists))
    as (interfaces & Hlen & _ & Hrun).
  exists interfaces. split; [exact Hlen|exact Hrun].
Defined.

Lemma get_remote_control_info_last_button_witness :
  let power name code :=
    VDict {[ "name"%string := VStr name; "value"%string := VStr code ]} in
  let dev := Reference.answering
               (VList [VNone; VList [power "Power" "AAAAAQAAAAEAAAAVAw==";
                                     power "Power" "AAAAAQAAAAEAAAAuAw=="]]) in
  exists result,
    (System.get_remote_control_info dev (Reference.gate dev) Reference.ready_client).1
      = Return result /\
    dict_get result (VStr "Power") = Some (VStr "AAAAAQAAAAEAAAAuAw==").
Proof.
  intros power dev.
  destruct (get_remote_control_info_last_button (H:=Reference.externals) dev 0
              Reference.ready_client VNone [power "Power" "AAAAAQAAAAEAAAAVAw=="]
              (power "Power" "AAAAAQAAAAEAAAAuAw==")
              [(VStr "Power", VStr "AAAAAQAAAAEAAAAVAw==")]
              (VStr "Power") (VStr "AAAAAQAAAAEAAAAuAw==")
              eq_refl eq_refl eq_refl eq_refl eq_refl eq_refl)
    as (result & Hrun & Hget & _).
  exists result. split; [exact Hrun|exact Hget].
Defined.

Lemma get_speaker_settings_skips_other_targets_witness :
  let dev := Reference.answering (VList [VDict {[ "target"%string := VStr "balance" ]}]) in
  (Audio.get_speaker_settings dev (Reference.gate dev) Reference.ready_client).1 =
  Return (Audio.SpeakerSettings None VNone VNone None None).
Proof.
  intros dev.
  refine (get_speaker_settings_skips_other_targets (H:=Reference.externals) dev 0
            Reference.ready_client [VDict {[ "target"%string := VStr "balance" ]}]
            eq_refl eq_refl _).
  constructor; [|constructor]. eexists. split; [reflexivity|].
  repeat constructor.
Defined.
